(** * FDS Analytics agent

    A shallow embedding of the agent definition (src/agent/agent.py), the
    deployment script (src/agent/deploy.py) and the test harness
    (src/agent/test_agent.py), followed by the properties of the
    specification that are settled on it. *)

From Stdlib Require Import ZArith String Ascii List Bool Lia.
From stdpp Require Import base option list gmap strings pretty.

(** ** Python strings *)

Module PyStr.

(** The double quote and the line feed, which a literal cannot hold. *)
Definition dq : string := String (ascii_of_nat 34) EmptyString.
Definition nl : string := String (ascii_of_nat 10) EmptyString.

Definition quoted (s : string) : string := dq +:+ s +:+ dq.

(** [str.isspace] on the code points below 256. *)
Definition isspace (c : ascii) : bool :=
  let n := nat_of_ascii c in
  ((9 <=? n)%nat && (n <=? 13)%nat)
  || ((28 <=? n)%nat && (n <=? 32)%nat)
  || (n =? 133)%nat || (n =? 160)%nat.

Fixpoint lstrip (s : string) : string :=
  match s with
  | EmptyString => EmptyString
  | String c rest => if isspace c then lstrip rest else s
  end.

Fixpoint rstrip (s : string) : string :=
  match s with
  | EmptyString => EmptyString
  | String c rest =>
      match rstrip rest with
      | EmptyString => if isspace c then EmptyString else String c EmptyString
      | kept => String c kept
      end
  end.

(** [s.strip()] *)
Definition strip (s : string) : string := rstrip (lstrip s).

(** [sep.join(parts)] *)
Fixpoint join (sep : string) (parts : list string) : string :=
  match parts with
  | [] => EmptyString
  | [p] => p
  | p :: rest => p +:+ sep +:+ join sep rest
  end.

(** Truth value of a string: non-empty. *)
Definition truthy (s : string) : bool :=
  match s with EmptyString => false | String _ _ => true end.

(** [s[:n]] and [len(s)] *)
Definition take (n : nat) (s : string) : string := substring 0 n s.
Definition len (s : string) : nat := String.length s.

(** [c * n] *)
Fixpoint repeat_str (c : string) (n : nat) : string :=
  match n with O => EmptyString | S k => c +:+ repeat_str c k end.

(** Left-to-right concatenation, the reference for [join] with an empty
    separator. *)
Definition concat_all (parts : list string) : string :=
  fold_right String.append EmptyString parts.

End PyStr.

(** ** agent.py: the agent handed to the managed runtime *)

Module Agent.
Import PyStr.

(** The text of [instructions], line by line (between the triple quotes). *)
Definition instruction_lines : list string :=
  [
    "You are an AI assistant for restaurant analytics at Senso Sushi in Frankfort.";
    "";
    "You have access to 8 analytics tools to query sales data:";
    "";
    "1. **show_daily_sales** - Daily sales breakdown for a date range";
    "   - Required: startDate, endDate";
    "   - Optional: category filter";
    "";
    "2. **show_top_items** - Top N best-selling items by revenue";
    "   - Required: limit (1-1000), startDate, endDate";
    "   - Optional: category filter";
    "";
    "3. **show_category_breakdown** - Sales by primary category";
    "   - Required: startDate, endDate";
    "   - Optional: includeBeer (default true)";
    "";
    "4. **get_total_sales** - Total sales for a period (single aggregate)";
    "   - Required: startDate, endDate";
    "   - Optional: category filter";
    "";
    "5. **find_peak_day** - Find highest or lowest sales day";
    "   - Required: startDate, endDate, type (" +:+ quoted "highest" +:+ " or " +:+ quoted "lowest" +:+ ")";
    "   - Optional: category filter";
    "";
    "6. **compare_day_types** - Compare weekdays vs weekends";
    "   - Required: startDate, endDate, comparison (" +:+ quoted "weekday_vs_weekend" +:+ " or " +:+ quoted "by_day_of_week" +:+ ")";
    "   - Optional: category filter";
    "";
    "7. **track_item_performance** - Track specific item over time";
    "   - Required: itemName, startDate, endDate";
    "   - Supports fuzzy matching for item names";
    "";
    "8. **compare_periods** - Compare two time periods";
    "   - Required: startDate1, endDate1, startDate2, endDate2";
    "   - Optional: category or itemName filter";
    "";
    "**Important Guidelines:**";
    "";
    "- **ALWAYS** use tenant_id: " +:+ quoted "senso-sushi" +:+ " when calling tools";
    "- **Date format:** All dates must be YYYY-MM-DD (e.g., " +:+ quoted "2025-05-01" +:+ ")";
    "- **Category names:**";
    "  - Primary categories have parentheses: (Beer), (Sushi), (Food), (Liquor), (Wine), (N/A Beverages)";
    "  - Subcategories have no parentheses: Bottle Beer, Draft Beer, Signature Rolls, etc.";
    "- **Charts:** When chartUrl is provided in the response, mention it to the user";
    "";
    "**Response Handling:**";
    "";
    "- Present data in a clear, conversational format";
    "- Highlight key insights and trends";
    "- If no data is found, suggest alternative queries";
    "- If errors occur, explain them in simple terms";
    "- Always acknowledge chart availability when chartUrl is present";
    "";
    "**Example Interactions:**";
    "";
    "User: " +:+ quoted "Show me sales for May";
    "→ Call show_daily_sales with startDate=" +:+ quoted "2025-05-01" +:+ ", endDate=" +:+ quoted "2025-05-31";
    "";
    "User: " +:+ quoted "What are the top 10 items?";
    "→ Ask for time period first, then call show_top_items";
    "";
    "User: " +:+ quoted "Compare May and June";
    "→ Call compare_periods with both date ranges";
    "";
    "User: " +:+ quoted "How is Salmon Roll doing?";
    "→ Ask for time period, then call track_item_performance";
    "";
    "Be friendly, helpful, and data-driven in your responses."
  ].

Definition instructions : string := nl +:+ join nl instruction_lines +:+ nl.

(** The toolset is built from the OpenAPI document next to the package,
    whose text is read at import time. *)
Record OpenAPIToolset := {
  spec_str : string;
  spec_str_type : string
}.

Record LlmAgent := {
  agent_name : string;
  model : string;
  agent_instructions : string;
  tools : list OpenAPIToolset;
  generation_config : list (string * string)
}.

Definition analytics_tools (openapi_spec : string) : OpenAPIToolset :=
  {| spec_str := openapi_spec; spec_str_type := "yaml" |}.

Definition root_agent (openapi_spec : string) : LlmAgent :=
  {| agent_name := "fds_analytics_agent";
     model := "gemini-2.5-flash";
     agent_instructions := instructions;
     tools := [analytics_tools openapi_spec];
     generation_config := [("temperature", "1.0"); ("top_p", "0.95")] |}.

(** *** The operation catalog the instructions advertise

    What the eight numbered entries of the instructions say, as data. *)

Inductive ParamKind :=
| PDate                         (* a date, YYYY-MM-DD *)
| PRange (lo hi : Z)            (* an integer, written (lo-hi) *)
| PEnum (values : list string)  (* one of the quoted literals *)
| PText                         (* free text *)
| PFilter                       (* an optional filter *)
| PFlag (default : bool).       (* a flag with its default *)

Record Param := { pname : string; pkind : ParamKind }.

Record Operation := {
  op_name : string;
  summary : string;
  required : list Param;
  optional : list Param;
  remark : option string
}.

Definition date (n : string) : Param := {| pname := n; pkind := PDate |}.
Definition filter_ (n : string) : Param := {| pname := n; pkind := PFilter |}.

Definition catalog : list Operation :=
  [ {| op_name := "show_daily_sales";
       summary := "Daily sales breakdown for a date range";
       required := [date "startDate"; date "endDate"];
       optional := [filter_ "category"];
       remark := None |};
    {| op_name := "show_top_items";
       summary := "Top N best-selling items by revenue";
       required := [ {| pname := "limit"; pkind := PRange 1 1000 |};
                     date "startDate"; date "endDate"];
       optional := [filter_ "category"];
       remark := None |};
    {| op_name := "show_category_breakdown";
       summary := "Sales by primary category";
       required := [date "startDate"; date "endDate"];
       optional := [ {| pname := "includeBeer"; pkind := PFlag true |} ];
       remark := None |};
    {| op_name := "get_total_sales";
       summary := "Total sales for a period (single aggregate)";
       required := [date "startDate"; date "endDate"];
       optional := [filter_ "category"];
       remark := None |};
    {| op_name := "find_peak_day";
       summary := "Find highest or lowest sales day";
       required := [date "startDate"; date "endDate";
                    {| pname := "type"; pkind := PEnum ["highest"; "lowest"] |}];
       optional := [filter_ "category"];
       remark := None |};
    {| op_name := "compare_day_types";
       summary := "Compare weekdays vs weekends";
       required := [date "startDate"; date "endDate";
                    {| pname := "comparison";
                       pkind := PEnum ["weekday_vs_weekend"; "by_day_of_week"] |}];
       optional := [filter_ "category"];
       remark := None |};
    {| op_name := "track_item_performance";
       summary := "Track specific item over time";
       required := [ {| pname := "itemName"; pkind := PText |};
                     date "startDate"; date "endDate"];
       optional := [];
       remark := Some "Supports fuzzy matching for item names" |};
    {| op_name := "compare_periods";
       summary := "Compare two time periods";
       required := [date "startDate1"; date "endDate1";
                    date "startDate2"; date "endDate2"];
       optional := [filter_ "category"; filter_ "itemName"];
       remark := None |} ].

(** The tenant the guidelines tell the model to use. *)
Definition tenant_key : string := "tenant_id".
Definition tenant_value : string := "senso-sushi".







(** The line of the guidelines that names the tenant. *)
Definition tenant_guideline : string :=
  "- **ALWAYS** use " +:+ tenant_key +:+ ": " +:+ quoted tenant_value
  +:+ " when calling tools".


Definition lookup_operation (n : string) : option Operation :=
  find (fun op => bool_decide (op_name op = n)) catalog.



End Agent.

(** ** The tool-call orchestration layer

    agent.py hands the instructions and the toolset to the managed runtime
    and contains no validation or dispatch code of its own; the OpenAPI
    document the toolset is built from (vertex-ai-tools-config.yaml) is not
    part of the sources either. The layer is therefore modelled from
    sections 3, 4.1-4.3 and 7 of the specification, over the catalog and the
    tenant that agent.py does state. *)

Module Orchestrator.
Import PyStr Agent.

(** Modelled from the spec: the typed values of an Argument Set
    (section 3); the source has no such type. *)
Inductive Value :=
| VStr (s : string)
| VInt (n : Z)
| VBool (b : bool).

(** An Argument Set maps parameter names to values: [gmap string Value]. *)

(** Modelled from the spec: the reasons of a ValidationError and of a
    CatalogMismatch (sections 4.1 and 7). *)
Inductive ValidationError :=
| CatalogMismatch (name : string)
| MissingRequired (param : string)
| UnknownParameter (param : string)
| WrongType (param : string)
| BadDateFormat (param : string)
| OutOfRange (param : string) (n : Z)
| NotInEnumeration (param : string) (s : string)
| DateOrder (start_date end_date : string).

(** Modelled from the spec: the characters of the date format below. *)
Definition is_digit (c : ascii) : bool :=
  let n := nat_of_ascii c in (48 <=? n)%nat && (n <=? 57)%nat.

(** Modelled from the spec: the separator of the date format below. *)
Definition is_dash (c : ascii) : bool := (nat_of_ascii c =? 45)%nat.

(** Modelled from the spec: the date format of section 4.1 and 6
    (YYYY-MM-DD), which no source file checks. *)
Definition iso_date (s : string) : bool :=
  match list_ascii_of_string s with
  | [y1; y2; y3; y4; s1; m1; m2; s2; d1; d2] =>
      forallb is_digit [y1; y2; y3; y4; m1; m2; d1; d2]
      && is_dash s1 && is_dash s2
  | _ => false
  end.

(** Modelled from the spec: the per-parameter rules of section 4.1
    (declared type, date format, inclusive numeric range, enumeration). *)
Definition check_value (p : Param) (v : Value) : option ValidationError :=
  match pkind p, v with
  | PDate, VStr s => if iso_date s then None else Some (BadDateFormat (pname p))
  | PRange lo hi, VInt n =>
      if ((lo <=? n) && (n <=? hi))%Z then None
      else Some (OutOfRange (pname p) n)
  | PEnum values, VStr s =>
      if bool_decide (s ∈ values) then None
      else Some (NotInEnumeration (pname p) s)
  | PText, VStr _ => None
  | PFilter, VStr _ => None
  | PFlag _, VBool _ => None
  | _, _ => Some (WrongType (pname p))
  end.

(** Modelled from the spec: every required parameter is supplied with a
    value that passes [check_value] (section 4.1). *)
Fixpoint check_required (ps : list Param) (args : gmap string Value)
  : option ValidationError :=
  match ps with
  | [] => None
  | p :: rest =>
      match args !! pname p with
      | None => Some (MissingRequired (pname p))
      | Some v =>
          match check_value p v with
          | Some e => Some e
          | None => check_required rest args
          end
      end
  end.

(** Modelled from the spec: an optional parameter, when supplied, passes
    [check_value] (section 4.1). *)
Fixpoint check_optional (ps : list Param) (args : gmap string Value)
  : option ValidationError :=
  match ps with
  | [] => None
  | p :: rest =>
      match args !! pname p with
      | None => check_optional rest args
      | Some v =>
          match check_value p v with
          | Some e => Some e
          | None => check_optional rest args
          end
      end
  end.

(** Modelled from the spec: the parameter names of the schema of an
    operation, with the tenant parameter every request carries
    (sections 3 and 6). *)
Definition schema_names (op : Operation) : list string :=
  tenant_key :: map pname (required op ++ optional op).

(** Modelled from the spec: unknown parameters are rejected (section 4.1);
    the injected tenant parameter belongs to every schema (section 6). *)
Definition check_unknown (op : Operation) (args : gmap string Value)
  : option ValidationError :=
  match filter (fun k => k ∉ schema_names op) (map fst (map_to_list args)) with
  | [] => None
  | k :: _ => Some (UnknownParameter k)
  end.

(** Modelled from the spec: [startDate <= endDate] when both are present
    (section 4.1); dates of the one format compare as strings. *)
Definition check_date_order (args : gmap string Value)
  : option ValidationError :=
  match args !! "startDate", args !! "endDate" with
  | Some (VStr a), Some (VStr b) =>
      if String.leb a b then None else Some (DateOrder a b)
  | _, _ => None
  end.

(** Modelled from the spec: the fixed default argument of section 4.3,
    which replaces whatever the model supplied under that name. *)
Definition inject_tenant (args : gmap string Value) : gmap string Value :=
  <[tenant_key := VStr tenant_value]> args.

(** Modelled from the spec: the first rule that fails decides the
    rejection (section 4.1 gives no order; any failure rejects). *)
Definition first_error (checks : list (option ValidationError))
  : option ValidationError :=
  match omap id checks with
  | [] => None
  | e :: _ => Some e
  end.

(** Modelled from the spec: the Validating state of section 4.3 with the
    rule set of section 4.1. The result is the Argument Set to dispatch,
    or the reason for the correction message. *)
Definition validate (name : string) (args : gmap string Value)
  : ValidationError + gmap string Value :=
  match lookup_operation name with
  | None => inl (CatalogMismatch name)
  | Some op =>
      let args' := inject_tenant args in
      match first_error [ check_required (required op) args';
                          check_optional (optional op) args';
                          check_unknown op args';
                          check_date_order args' ] with
      | Some e => inl e
      | None => inr args'
      end
  end.

(** Modelled from the spec: a Tool Call, an operation with its validated
    Argument Set and its sequence number in the turn (section 3). *)
Record ToolCall := {
  call_op : string;
  call_args : gmap string Value;
  call_seq : nat
}.

(** Modelled from the spec: the Tool Result of the Invoker
    (sections 3 and 4.2). *)
Inductive FailureKind :=
| Unreachable | BadRequest | Unauthorized | ServerError | Timeout.

(** Modelled from the spec: a structured payload with an optional chart
    reference, or a typed failure (section 3). *)
Inductive ToolResult :=
| Payload (body : string) (chart_url : option string)
| Failure (kind : FailureKind) (detail : string).

(** Modelled from the spec: what the language model returns in
    AwaitingIntent, and what it is shown (section 4.3). *)
Inductive ModelOutput :=
| ProposeCall (name : string) (args : gmap string Value)
| FinalAnswer (text : string).

(** Modelled from the spec: an entry of the context given to the model:
    utterance, correction message, Tool Call with its result, or reply
    (sections 3 and 4.3). *)
Inductive ContextEntry :=
| UserUtterance (text : string)
| CorrectionMessage (e : ValidationError)
| ToolOutcome (call : ToolCall) (result : ToolResult)
| Reply (text : string).

(** Modelled from the spec: the state of a turn, that is the context
    shown to the model, the Tool Calls dispatched so far (one network
    request each, section 4.2), and the corrections and tool failures used
    up (sections 4.3 and 7). *)
Record TurnState := {
  context : list ContextEntry;
  dispatched : list ToolCall;
  retries : nat
}.

(** Modelled from the spec: a pass goes on in AwaitingIntent or ends in
    Done with the reply (section 4.3). *)
Inductive StepResult :=
| Continue (st : TurnState)
| Finished (st : TurnState) (reply : string).

(** Modelled from the spec: the state a pass leaves behind. *)
Definition state_of (r : StepResult) : TurnState :=
  match r with Continue st => st | Finished st _ => st end.

(** Modelled from the spec: the plain-language failure of section 7. *)
Definition apology : string :=
  "Sorry, I could not complete that request.".

(** Modelled from the spec: a Tool Result that is a typed failure. *)
Definition is_failure (r : ToolResult) : bool :=
  match r with Failure _ _ => true | Payload _ _ => false end.

Section Turn.

(** The language model, the external analytics API and the retry bound are
    whatever they are. *)
Variable language_model : list ContextEntry → ModelOutput.
Variable external_api : ToolCall → ToolResult.
Variable max_retries : nat.

(** Modelled from the spec: one pass through AwaitingIntent, Validating
    and Invoking (section 4.3). An invalid Argument Set produces a
    correction message and no request; a valid one is dispatched once. *)
Definition step (st : TurnState) : StepResult :=
  match language_model (context st) with
  | FinalAnswer text => Finished st text
  | ProposeCall name args =>
      match validate name args with
      | inl e =>
          if decide (retries st < max_retries)%nat then
            Continue {| context := context st ++ [CorrectionMessage e];
                        dispatched := dispatched st;
                        retries := S (retries st) |}
          else Finished st apology
      | inr args' =>
          let call := {| call_op := name; call_args := args';
                         call_seq := length (dispatched st) |} in
          let result := external_api call in
          let st' := {| context := context st ++ [ToolOutcome call result];
                        dispatched := dispatched st ++ [call];
                        retries := if is_failure result then S (retries st)
                                   else retries st |} in
          if is_failure result then
            if decide (retries st < max_retries)%nat then Continue st'
            else Finished st' apology
          else Continue st'
      end
  end.

(** Modelled from the spec: the dialogue loop of a turn, repeated until the
    model gives its final answer; [fuel] bounds the passes looked at. *)
Fixpoint run (fuel : nat) (st : TurnState) : StepResult :=
  match fuel with
  | O => Continue st
  | S k =>
      match step st with
      | Continue st' => run k st'
      | Finished st' reply => Finished st' reply
      end
  end.

(** Modelled from the spec: a turn starts in AwaitingIntent with the
    history and the utterance, nothing dispatched (section 4.3). *)
Definition start_turn (history : list ContextEntry) (utterance : string)
  : TurnState :=
  {| context := history ++ [UserUtterance utterance];
     dispatched := [];
     retries := 0 |}.

End Turn.

(** Modelled from the spec: the override invariant of section 8, for one
    Tool Call. *)
Definition carries_tenant (c : ToolCall) : Prop :=
  call_args c !! tenant_key = Some (VStr tenant_value).

End Orchestrator.

(** ** Scripts as processes

    deploy.py and test_agent.py print, call the SDK, touch one file and end
    through [sys.exit] or an exception. A process threads the world (what
    was printed, which outside calls were made, the files) and ends
    normally, by [sys.exit], or with a raised exception. *)

Module Proc.
Import PyStr.

(** A raised exception: whether [except Exception] catches it, and
    [str(e)]. *)
Record PyExc := {
  is_Exception : bool;
  message : string
}.

(** What reaches the terminal: a printed string, the summary line whose
    percentage is formatted from the two counters, or the traceback of an
    uncaught exception. *)
Inductive Out :=
| Line (text : string)
| RateLine (passed total : nat)
| Traceback (e : PyExc).

(** Calls that leave the process. *)
Inductive Action :=
| SdkInit (project location : string) (staging_bucket : option string)
| WrapAgent
| CreateEngine (display_name : string)
| FileWrite (path content : string)
| FileExists (path : string)
| FileRead (path : string)
| GetEngine (resource_name : string)
| CreateSession (user_id : string)
| StreamQuery (user_id session_id message : string).

Record World := {
  output : list Out;
  actions : list Action;
  files : gmap string string
}.

Inductive Ctl (A : Type) :=
| Normal (a : A)
| SysExit (code : Z)
| Raised (e : PyExc).
Arguments Normal {A} a.
Arguments SysExit {A} code.
Arguments Raised {A} e.

Definition Proc (A : Type) : Type := World → Ctl A * World.

Definition ret {A} (a : A) : Proc A := fun w => (Normal a, w).

Definition bind {A B} (m : Proc A) (k : A → Proc B) : Proc B :=
  fun w =>
    match m w with
    | (Normal a, w') => k a w'
    | (SysExit c, w') => (SysExit c, w')
    | (Raised e, w') => (Raised e, w')
    end.

Declare Scope proc_scope.
Delimit Scope proc_scope with proc.
Notation "x ← y ; z" := (bind y (fun x => z))
  (at level 20, y at level 100, z at level 200, only parsing) : proc_scope.
Notation "' x ← y ; z" := (bind y (fun x => z))
  (at level 20, x pattern, y at level 100, z at level 200, only parsing)
  : proc_scope.
Notation "x ;; z" := (bind x (fun _ => z))
  (at level 100, z at level 200, only parsing, right associativity)
  : proc_scope.
Local Open Scope proc_scope.

(** [print(s)] *)
Definition emit (o : Out) : Proc unit :=
  fun w => (Normal tt, {| output := output w ++ [o];
                          actions := actions w;
                          files := files w |}).
Definition print (s : string) : Proc unit := emit (Line s).

(** An outside call is recorded when it is made. *)
Definition perform (a : Action) : Proc unit :=
  fun w => (Normal tt, {| output := output w;
                          actions := actions w ++ [a];
                          files := files w |}).

Definition raise {A} (e : PyExc) : Proc A := fun w => (Raised e, w).

(** [sys.exit(code)] *)
Definition sys_exit {A} (code : Z) : Proc A := fun w => (SysExit code, w).

(** [try: body / except Exception as e: handler(e)]: [SystemExit] and
    exceptions outside [Exception] pass through. *)
Definition try_except {A} (body : Proc A) (handler : PyExc → Proc A) : Proc A :=
  fun w =>
    match body w with
    | (Raised e, w') =>
        if is_Exception e then handler e w' else (Raised e, w')
    | other => other
    end.

(** A call that raises or returns nothing. *)
Definition call (a : Action) (outcome : option PyExc) : Proc unit :=
  perform a ;;
  match outcome with
  | Some e => raise e
  | None => ret tt
  end.

(** A call that raises or returns a value. *)
Definition call_value {A} (a : Action) (outcome : PyExc + A) : Proc A :=
  perform a ;;
  match outcome with
  | inl e => raise e
  | inr v => ret v
  end.

(** [os.getenv(name, default)] *)
Definition getenv (environ : gmap string string) (name fallback : string)
  : string :=
  default fallback (environ !! name).

(** [Path(__file__).parent / ".agent_resource"], for a script in [here]. *)
Definition resource_file (here : string) : string :=
  here +:+ "/.agent_resource".

(** How opening a file for writing and writing to it can end. *)
Inductive WriteOutcome :=
| Written
| OpenFails (reason : string)
| WriteFails (reason : string).

(** The exception of a failed file operation; [except Exception] catches
    it. *)
Definition OSError (reason : string) : PyExc :=
  {| is_Exception := true; message := reason |}.

(** The file at [path] now holds [content]; a file holds the text given
    to it, as it was given. *)
Definition store (path content : string) : Proc unit :=
  fun w => (Normal tt, {| output := output w; actions := actions w;
                          files := <[path := content]> (files w) |}).

(** [with open(path, "w") as f: f.write(content)]: a failure on opening
    leaves the file alone, a failure on writing leaves it truncated. *)
Definition write_file (path content : string) (o : WriteOutcome) : Proc unit :=
  perform (FileWrite path content) ;;
  match o with
  | Written => store path content
  | OpenFails reason => raise (OSError reason)
  | WriteFails reason => store path "" ;; raise (OSError reason)
  end.

(** The files as they are now. *)
Definition disk : Proc (gmap string string) :=
  fun w => (Normal (files w), w).

(** [path.exists()] *)
Definition file_exists (path : string) : Proc bool :=
  perform (FileExists path) ;;
  fs ← disk;
  ret (bool_decide (is_Some (fs !! path))).

Definition FileNotFoundError (path : string) : PyExc :=
  OSError ("[Errno 2] No such file or directory: '" +:+ path +:+ "'").

(** [path.read_text()] *)
Definition read_text (path : string) : Proc string :=
  perform (FileRead path) ;;
  fs ← disk;
  match fs !! path with
  | Some content => ret content
  | None => raise (FileNotFoundError path)
  end.

Definition KeyError (key : string) : PyExc :=
  {| is_Exception := true; message := "'" +:+ key +:+ "'" |}.

(** [d[key]] on a dict *)
Definition getitem (d : gmap string string) (key : string) : Proc string :=
  match d !! key with
  | Some v => ret v
  | None => raise (KeyError key)
  end.

(** The exception of a division by zero. *)
Definition ZeroDivisionError : PyExc :=
  {| is_Exception := true; message := "division by zero" |}.

Definition IndexError : PyExc :=
  {| is_Exception := true; message := "list index out of range" |}.

(** [l[i]] on a list *)
Definition index (l : list string) (i : nat) : Proc string :=
  match l !! i with
  | Some v => ret v
  | None => raise IndexError
  end.

Definition rule (c : string) : string := repeat_str c 60.

(** The status the interpreter ends with: 0 at the end of the script, the
    argument of [sys.exit], 1 after the traceback of an uncaught exception
    (an interrupt from the keyboard, which ends the process through its
    signal, is not among the exceptions considered). *)
Definition finish {A} (r : Ctl A * World) : Z * World :=
  match r with
  | (Normal _, w) => (0%Z, w)
  | (SysExit c, w) => (c, w)
  | (Raised e, w) =>
      (1%Z, {| output := output w ++ [Traceback e];
               actions := actions w; files := files w |})
  end.

(** A fresh process over the files on disk. *)
Definition boot (fs : gmap string string) : World :=
  {| output := []; actions := []; files := fs |}.

Definition run_script {A} (script : Proc A) (fs : gmap string string)
  : Z * World :=
  finish (script (boot fs)).

(** Lines that report a failure. *)
Definition is_diagnostic (o : Out) : bool :=
  match o with
  | Line text => String.prefix "✗" text || String.prefix "Error:" text
  | RateLine _ _ => false
  | Traceback _ => true
  end.

End Proc.

(** ** deploy.py *)

Module Deploy.
Import PyStr Proc.
Local Open Scope proc_scope.

(** What the script meets outside itself. *)
Record Env := {
  environ : gmap string string;
  here : string;                       (* the directory of deploy.py *)
  init_outcome : option PyExc;         (* vertexai.init *)
  wrap_outcome : option PyExc;         (* agent_engines.AdkApp *)
  create_outcome : PyExc + string;     (* agent_engines.create; the
                                          resource_name of the result *)
  write_outcome : WriteOutcome
}.

Definition deploy (E : Env) : Proc unit :=
  let PROJECT_ID := getenv (environ E) "PROJECT_ID" "fdsanalytics" in
  let REGION := getenv (environ E) "REGION" "us-central1" in
  let STAGING_BUCKET :=
    getenv (environ E) "STAGING_BUCKET"
      ("gs://" +:+ PROJECT_ID +:+ "-agent-staging") in
  let AGENT_DISPLAY_NAME :=
    getenv (environ E) "AGENT_DISPLAY_NAME" "FDS Analytics Agent" in
  print (rule "=") ;;
  print "FDS Analytics Agent - Deployment" ;;
  print (rule "=") ;;
  print ("Project ID:      " +:+ PROJECT_ID) ;;
  print ("Region:          " +:+ REGION) ;;
  print ("Staging Bucket:  " +:+ STAGING_BUCKET) ;;
  print ("Display Name:    " +:+ AGENT_DISPLAY_NAME) ;;
  print (rule "=") ;;
  (* Initialize Vertex AI *)
  print (nl +:+ "[1/4] Initializing Vertex AI SDK...") ;;
  try_except
    (call (SdkInit PROJECT_ID REGION (Some STAGING_BUCKET)) (init_outcome E) ;;
     print "✓ Vertex AI initialized")
    (fun e =>
       print ("✗ Failed to initialize Vertex AI: " +:+ message e) ;;
       sys_exit 1) ;;
  (* Wrap agent in AdkApp *)
  print (nl +:+ "[2/4] Wrapping agent with AdkApp...") ;;
  try_except
    (call WrapAgent (wrap_outcome E) ;;
     print "✓ Agent wrapped successfully")
    (fun e =>
       print ("✗ Failed to wrap agent: " +:+ message e) ;;
       sys_exit 1) ;;
  (* Deploy to Agent Engine *)
  print (nl +:+ "[3/4] Deploying to Vertex AI Agent Engine...") ;;
  print "(This may take 2-3 minutes...)" ;;
  resource_name ←
    try_except
      (r ← call_value (CreateEngine AGENT_DISPLAY_NAME) (create_outcome E);
       print "✓ Agent deployed successfully!" ;;
       ret r)
      (fun e =>
         print ("✗ Deployment failed: " +:+ message e) ;;
         sys_exit 1);
  (* Save resource name for later use *)
  print (nl +:+ "[4/4] Saving deployment information...") ;;
  try_except
    (write_file (resource_file (here E)) resource_name (write_outcome E) ;;
     print ("✓ Resource name saved to: " +:+ resource_file (here E)))
    (fun e =>
       print ("⚠ Warning: Could not save resource name: " +:+ message e)) ;;
  (* Print deployment summary *)
  print (nl +:+ rule "=") ;;
  print "DEPLOYMENT SUCCESSFUL!" ;;
  print (rule "=") ;;
  print (nl +:+ "Resource Name:") ;;
  print ("  " +:+ resource_name) ;;
  print (nl +:+ "API Endpoint:") ;;
  print ("  https://" +:+ REGION +:+ "-aiplatform.googleapis.com/v1/"
         +:+ resource_name +:+ ":query") ;;
  print (nl +:+ "Test the agent:") ;;
  print "  python test_agent.py" ;;
  print (nl +:+ "View in Console:") ;;
  print ("  https://console.cloud.google.com/vertex-ai/agents?project="
         +:+ PROJECT_ID) ;;
  print (nl +:+ rule "=").

(** The resource name of the deployed agent, when the three deployment
    steps succeed. *)
Definition deployed (E : Env) : option string :=
  match init_outcome E, wrap_outcome E, create_outcome E with
  | None, None, inr resource_name => Some resource_name
  | _, _, _ => None
  end.

End Deploy.

(** ** test_agent.py *)

Module TestAgent.
Import PyStr Proc.
Local Open Scope proc_scope.

Record TestQuery := {
  name : string;
  query : string;
  expected_tool : string
}.

Definition TEST_QUERIES : list TestQuery :=
  [ {| name := "Daily Sales Query";
       query := "Show me daily sales for May 2025";
       expected_tool := "show_daily_sales" |};
    {| name := "Top Items Query";
       query := "What are the top 10 items in July 2025?";
       expected_tool := "show_top_items" |};
    {| name := "Category Breakdown Query";
       query := "Show me sales by category for May 2025";
       expected_tool := "show_category_breakdown" |};
    {| name := "Period Comparison Query";
       query := "Compare May and June 2025 sales";
       expected_tool := "compare_periods" |};
    {| name := "Peak Day Query";
       query := "What was the best sales day in May 2025?";
       expected_tool := "find_peak_day" |} ].

(** An event of the reply stream: one with a [text] attribute holding a
    string, or any other (no such attribute, or [None]). *)
Inductive Event :=
| TextEvent (text : string)
| OtherEvent.

(** A reply stream: the events it yields, then its end, by completion or
    by an exception. *)
Record Stream := {
  events : list Event;
  ending : option PyExc
}.

(** What the harness meets outside itself. *)
Record Env := {
  environ : gmap string string;
  argv : list string;
  here : string;                            (* the directory of test_agent.py *)
  sdk_installed : bool;                     (* the imports at the top *)
  now : string;                             (* strftime('%Y%m%d_%H%M%S') *)
  init_outcome : option PyExc;              (* vertexai.init *)
  get_outcome : string → option PyExc;      (* agent_engines.get *)
  session_outcome : string → PyExc + gmap string string;
                                            (* async_create_session *)
  stream_outcome : nat → string → string → string → Stream
                                            (* the n-th async_stream_query *)
}.

(** The body of the [async for]: events with a non-empty text are appended
    to [response_parts]. *)
Definition append_part (response_parts : list string) (event : Event)
  : list string :=
  match event with
  | TextEvent text =>
      if truthy text then response_parts ++ [text] else response_parts
  | OtherEvent => response_parts
  end.

Fixpoint collect (response_parts : list string) (events : list Event)
  : list string :=
  match events with
  | [] => response_parts
  | event :: rest => collect (append_part response_parts event) rest
  end.

(** [response_parts] when the loop over a stream ends. *)
Definition parts_at_end (s : Stream) : list string := collect [] (events s).

(** The loop over a stream: it ends with [response_parts], or with the
    exception the stream raised. *)
Definition consume (s : Stream) : Proc (list string) :=
  match ending s with
  | None => ret (parts_at_end s)
  | Some e => raise e
  end.

(** ["".join(response_parts)] of a completed stream. *)
Definition full_response (events : list Event) : string :=
  join "" (collect [] events).

Definition env_project (E : Env) : string :=
  getenv (environ E) "PROJECT_ID" "fdsanalytics".
Definition env_region (E : Env) : string :=
  getenv (environ E) "REGION" "us-central1".

(** The body of the [for] loop over the test queries, for the [i]-th query
    (from 1) of [total]; the counters are [passed] and [failed]. *)
Definition run_test (E : Env) (session : gmap string string)
    (session_id : string) (total i : nat) (test : TestQuery)
    (counters : nat * nat) : Proc (nat * nat) :=
  let '(passed, failed) := counters in
  print ("[Test " +:+ pretty i +:+ "/" +:+ pretty total +:+ "] " +:+ name test) ;;
  print ("Query: " +:+ query test) ;;
  print "" ;;
  counters' ←
    try_except
      (user_id ← getitem session "user_id";
       perform (StreamQuery user_id session_id (query test)) ;;
       response_parts ←
         consume (stream_outcome E (i - 1) user_id session_id (query test));
       let full_response := join "" response_parts in
       if truthy full_response then
         print "Response:" ;;
         print (rule "-") ;;
         print (take 500 full_response) ;;
         (if decide (500 < len full_response)%nat
          then print "... (truncated)" else ret tt) ;;
         print (rule "-") ;;
         print "✓ Test passed" ;;
         ret (S passed, failed)
       else
         print "✗ Test failed: No response received" ;;
         ret (passed, S failed))
      (fun e =>
         print ("✗ Test failed: " +:+ message e) ;;
         ret (passed, S failed));
  print "" ;;
  ret counters'.

Fixpoint run_tests (E : Env) (session : gmap string string)
    (session_id : string) (total i : nat) (tests : list TestQuery)
    (counters : nat * nat) : Proc (nat * nat) :=
  match tests with
  | [] => ret counters
  | test :: rest =>
      counters' ← run_test E session session_id total i test counters;
      run_tests E session session_id total (S i) rest counters'
  end.

(** [test_agent(resource_name)] over the list of test queries. *)
Definition test_agent_on (tests : list TestQuery) (E : Env)
    (resource_name : string) : Proc bool :=
  print (rule "=") ;;
  print "FDS Analytics Agent - Test Suite" ;;
  print (rule "=") ;;
  print ("Project ID:  " +:+ env_project E) ;;
  print ("Region:      " +:+ env_region E) ;;
  print ("Resource:    " +:+ resource_name) ;;
  print (rule "=") ;;
  print "" ;;
  (* Initialize Vertex AI *)
  print "[1/3] Initializing Vertex AI SDK..." ;;
  call (SdkInit (env_project E) (env_region E) None) (init_outcome E) ;;
  print "✓ Initialized" ;;
  print "" ;;
  (* Get agent *)
  print "[2/3] Connecting to deployed agent..." ;;
  try_except
    (call (GetEngine resource_name) (get_outcome E resource_name) ;;
     print ("✓ Connected to agent: " +:+ resource_name))
    (fun e =>
       print ("✗ Failed to connect: " +:+ message e) ;;
       print "" ;;
       print "Troubleshooting:" ;;
       print "  1. Verify agent is deployed: gcloud ai reasoning-engines list" ;;
       print "  2. Check resource name in .agent_resource file" ;;
       print "  3. Ensure you have permission to access the agent" ;;
       sys_exit 1) ;;
  print "" ;;
  (* Create test session *)
  print "[3/3] Creating test session..." ;;
  '(session, session_id) ←
    try_except
      (session ← call_value (CreateSession ("test_user_" +:+ now E))
                   (session_outcome E ("test_user_" +:+ now E));
       session_id ← getitem session "id";
       print ("✓ Session created: " +:+ session_id) ;;
       ret (session, session_id))
      (fun e =>
         print ("✗ Failed to create session: " +:+ message e) ;;
         sys_exit 1);
  print "" ;;
  (* Run test queries *)
  print (rule "=") ;;
  print "Running Test Queries" ;;
  print (rule "=") ;;
  print "" ;;
  '(passed, failed) ←
    run_tests E session session_id (length tests) 1 tests (0%nat, 0%nat);
  (* Summary *)
  print (rule "=") ;;
  print "Test Summary" ;;
  print (rule "=") ;;
  print ("Total tests:  " +:+ pretty (length tests)) ;;
  print ("Passed:       " +:+ pretty passed +:+ " ✓") ;;
  print ("Failed:       " +:+ pretty failed +:+ " ✗") ;;
  (* the success rate divides by the number of queries *)
  (if decide (length tests = 0%nat) then raise ZeroDivisionError
   else emit (RateLine passed (length tests))) ;;
  print (rule "=") ;;
  ret (bool_decide (failed = 0%nat)).

Definition test_agent : Env → string → Proc bool := test_agent_on TEST_QUERIES.

(** The first part of [main]: the resource name from the arguments or
    from the .agent_resource file. *)
Definition resolve_resource_name (E : Env) : Proc string :=
  if bool_decide (1 < length (argv E))%nat
     && bool_decide (argv E !! 1%nat = Some "--resource")
     && bool_decide (2 < length (argv E))%nat
  then index (argv E) 2
  else
    (* Try to read from .agent_resource file *)
    present ← file_exists (resource_file (here E));
    if present then
      content ← read_text (resource_file (here E));
      ret (strip content)
    else
      print "Error: Agent resource name not found" ;;
      print "" ;;
      print "Usage:" ;;
      print "  python test_agent.py --resource RESOURCE_NAME" ;;
      print "" ;;
      print "Or deploy the agent first:" ;;
      print "  python deploy.py" ;;
      sys_exit 1.

Definition main_on (tests : list TestQuery) (E : Env) : Proc unit :=
  resource_name ← resolve_resource_name E;
  (* Run async test *)
  success ← test_agent_on tests E resource_name;
  sys_exit (if success then 0 else 1)%Z.

Definition main : Env → Proc unit := main_on TEST_QUERIES.

(** The script: the guarded imports, then [main()]. *)
Definition script_on (tests : list TestQuery) (E : Env) : Proc unit :=
  (if sdk_installed E then ret tt
   else
     print "Error: Vertex AI SDK not installed" ;;
     print "Install with: pip install google-cloud-aiplatform[adk,agent_engines]" ;;
     sys_exit 1) ;;
  main_on tests E.

Definition script : Env → Proc unit := script_on TEST_QUERIES.

(** A query is counted as passed: its session has a user id, its stream
    completes, and the joined text is not empty. *)
Definition query_passes (E : Env) (session : gmap string string)
    (session_id : string) (i : nat) (test : TestQuery) : bool :=
  match session !! "user_id" with
  | None => false
  | Some user_id =>
      let s := stream_outcome E (i - 1) user_id session_id (query test) in
      match ending s with
      | Some _ => false
      | None => truthy (full_response (events s))
      end
  end.

Fixpoint all_pass (E : Env) (session : gmap string string)
    (session_id : string) (i : nat) (tests : list TestQuery) : bool :=
  match tests with
  | [] => true
  | test :: rest =>
      query_passes E session session_id i test
      && all_pass E session session_id (S i) rest
  end.

(** The value that follows a leading --resource on the command line. *)
Definition flagged_resource (argv : list string) : option string :=
  match argv with
  | _ :: flag :: value :: _ =>
      if bool_decide (flag = "--resource") then Some value else None
  | _ => None
  end.

(** The resource name [main] settles on, if any: the value after a
    leading --resource, else the stripped content of the file. *)
Definition resolved (E : Env) (fs : gmap string string) : option string :=
  match flagged_resource (argv E) with
  | Some value => Some value
  | None => strip <$> fs !! resource_file (here E)
  end.

(** What [main] prints when it finds no resource name. *)
Definition usage : list Out :=
  [ Line "Error: Agent resource name not found";
    Line "";
    Line "Usage:";
    Line "  python test_agent.py --resource RESOURCE_NAME";
    Line "";
    Line "Or deploy the agent first:";
    Line "  python deploy.py" ].

(** The session the harness obtains, if initialisation, connection and
    session creation all succeed. *)
Definition setup (E : Env) (resource_name : string)
  : option (gmap string string * string) :=
  match init_outcome E, get_outcome E resource_name,
        session_outcome E ("test_user_" +:+ now E) with
  | None, None, inr session =>
      match session !! "id" with
      | Some session_id => Some (session, session_id)
      | None => None
      end
  | _, _, _ => None
  end.

(** [test_agent] returns true: the setup succeeds, every query passes,
    and there is a query at all (the success rate divides by their
    number). *)
Definition passes_on (tests : list TestQuery) (E : Env)
    (resource_name : string) : bool :=
  match setup E resource_name with
  | None => false
  | Some (session, session_id) =>
      all_pass E session session_id 1 tests
      && negb (bool_decide (tests = []))
  end.

(** [main] ends with status 0: a resource name is found and [test_agent]
    returns true. *)
Definition main_succeeds_on (tests : list TestQuery) (E : Env)
    (fs : gmap string string) : bool :=
  match resolved E fs with
  | None => false
  | Some resource_name => passes_on tests E resource_name
  end.

(** Nothing fails: the SDK is there and [main] ends with status 0. *)
Definition succeeds_on (tests : list TestQuery) (E : Env)
    (fs : gmap string string) : bool :=
  sdk_installed E && main_succeeds_on tests E fs.

(** The outside calls of [test_agent], in order, for a user and a
    session. *)
Definition planned_calls (tests : list TestQuery) (E : Env)
    (resource_name user_id session_id : string) : list Action :=
  SdkInit (env_project E) (env_region E) None
  :: GetEngine resource_name
  :: CreateSession ("test_user_" +:+ now E)
  :: map (fun t => StreamQuery user_id session_id (query t)) tests.

(** The stream queries a list of tests sends in a session. *)
Definition stream_queries (session : gmap string string)
    (session_id : string) (tests : list TestQuery) : list Action :=
  match session !! "user_id" with
  | Some user_id => map (fun t => StreamQuery user_id session_id (query t)) tests
  | None => []
  end.

(** The text an event contributes. *)
Definition text_of (event : Event) : string :=
  match event with TextEvent text => text | OtherEvent => "" end.

(** Calls to the SDK and the services behind it. *)
Definition is_file_action (a : Action) : bool :=
  match a with
  | FileWrite _ _ | FileExists _ | FileRead _ => true
  | _ => false
  end.

(** The same query with another expected tool. *)
Definition with_expected_tool (tool : string) (t : TestQuery) : TestQuery :=
  {| name := name t; query := query t; expected_tool := tool |}.

End TestAgent.

(** ** A concrete run, for the examples *)

Module Scenario.
Import Proc TestAgent.

(** The caller goes away in the middle of a reply. *)
Definition disconnected : PyExc :=
  {| is_Exception := true; message := "stream closed by peer" |}.

(** A cancelled task: outside [Exception]. *)
Definition cancelled : PyExc :=
  {| is_Exception := false; message := "CancelledError" |}.

Definition session : gmap string string :=
  {[ "id" := "session-1"; "user_id" := "test_user_20250101_000000" ]}.

(** A harness run in which every stream query is answered by [reply]. *)
Definition env (reply : Stream) : Env :=
  {| environ := ∅;
     argv := ["test_agent.py"];
     here := "/srv/agent";
     sdk_installed := true;
     now := "20250101_000000";
     init_outcome := None;
     get_outcome := fun _ => None;
     session_outcome := fun _ => inr session;
     stream_outcome := fun _ _ _ _ => reply |}.

Definition daily_sales : TestQuery :=
  {| name := "Daily Sales Query";
     query := "Show me daily sales for May 2025";
     expected_tool := "show_daily_sales" |}.

(** The same harness started with other arguments. *)
Definition started_with (args : list string) (E : Env) : Env :=
  {| environ := environ E;
     argv := args;
     here := here E;
     sdk_installed := sdk_installed E;
     now := now E;
     init_outcome := init_outcome E;
     get_outcome := get_outcome E;
     session_outcome := session_outcome E;
     stream_outcome := stream_outcome E |}.

(** A reply that completes with one text. *)
Definition answered : Stream :=
  {| events := [TextEvent "Sales were $500"]; ending := None |}.


(** The first test query run against a stream that yields [prefix] and is
    then interrupted by [e]. *)
Definition interrupted (prefix : list Event) (e : PyExc)
  : Ctl (nat * nat) * World :=
  run_test (env {| events := prefix; ending := Some e |})
    session "session-1" 5 1 daily_sales (0%nat, 0%nat) (boot ∅).

End Scenario.

(** ** Notions for the further properties *)

Module Aux.
Import PyStr Proc.

(** Every character of the string is whitespace. *)
Fixpoint all_space (s : string) : bool :=
  match s with
  | EmptyString => true
  | String c rest => isspace c && all_space rest
  end.


End Aux.

(** * Properties *)

Import PyStr.

(** ** Strings *)

Lemma append_cons (c : ascii) (s t : string) :
  String c s +:+ t = String c (s +:+ t).
Proof. reflexivity. Qed.

Lemma append_empty_r (s : string) : s +:+ "" = s.
Proof.
  induction s as [|c s IH]; [reflexivity|].
  rewrite append_cons. now rewrite IH.
Qed.

Lemma append_assoc (a b c : string) : (a +:+ b) +:+ c = a +:+ (b +:+ c).
Proof.
  induction a as [|x a IH]; [reflexivity|].
  rewrite !append_cons. now rewrite IH.
Qed.

Lemma join_empty_sep (parts : list string) : join "" parts = concat_all parts.
Proof.
  induction parts as [|p rest IH]; [reflexivity|].
  destruct rest as [|q rest'].
  - simpl. now rewrite append_empty_r.
  - change (join "" (p :: q :: rest')) with (p +:+ "" +:+ join "" (q :: rest')).
    rewrite IH. reflexivity.
Qed.

Lemma concat_all_app (xs ys : list string) :
  concat_all (xs ++ ys) = concat_all xs +:+ concat_all ys.
Proof.
  induction xs as [|x xs IH]; [reflexivity|].
  change (concat_all ((x :: xs) ++ ys)) with (x +:+ concat_all (xs ++ ys)).
  change (concat_all (x :: xs)) with (x +:+ concat_all xs).
  rewrite IH. now rewrite append_assoc.
Qed.

Lemma truthy_false (s : string) : truthy s = false → s = "".
Proof. destruct s; [reflexivity | discriminate]. Qed.

Lemma truthy_true (s : string) : truthy s = true ↔ s ≠ "".
Proof. destruct s; simpl; split; intros; congruence. Qed.

(** ** The operation catalog *)

Section CatalogFacts.
Import Agent.


Lemma tenant_guideline_in_instructions :
  instruction_lines !! 38%nat = Some tenant_guideline.
Proof. vm_compute. reflexivity. Qed.

Lemma root_agent_instructions (openapi_spec : string) :
  agent_instructions (root_agent openapi_spec)
  = nl +:+ join nl instruction_lines +:+ nl.
Proof. reflexivity. Qed.


End CatalogFacts.

(** ** The orchestration layer *)

Section OrchestratorFacts.
Import Agent Orchestrator.

Lemma first_error_none (checks : list (option ValidationError)) :
  first_error checks = None → Forall (λ c, c = None) checks.
Proof.
  unfold first_error. induction checks as [|c rest IH]; intros H.
  - constructor.
  - destruct c as [e|]; simpl in H; [discriminate|].
    constructor; [reflexivity | exact (IH H)].
Qed.

Lemma first_error_head (e : ValidationError) (rest : list (option ValidationError)) :
  first_error (Some e :: rest) = Some e.
Proof. reflexivity. Qed.

(** What validation lets through is the model's Argument Set with the
    tenant put in. *)
Lemma validate_accepts (name : string) (args args' : gmap string Value) :
  validate name args = inr args' → args' = inject_tenant args.
Proof.
  unfold validate. destruct (lookup_operation name) as [op|]; [|discriminate].
  destruct (first_error _); [discriminate|]. congruence.
Qed.

Lemma inject_tenant_lookup (args : gmap string Value) :
  inject_tenant args !! tenant_key = Some (VStr tenant_value).
Proof. unfold inject_tenant. apply lookup_insert_eq. Qed.

Lemma inject_tenant_other (args : gmap string Value) (k : string) :
  k ≠ tenant_key → inject_tenant args !! k = args !! k.
Proof. intros Hk. unfold inject_tenant. by rewrite lookup_insert_ne. Qed.

Lemma validate_carries_tenant (name : string) (args args' : gmap string Value) :
  validate name args = inr args' →
  args' !! tenant_key = Some (VStr tenant_value).
Proof.
  intros H. rewrite (validate_accepts _ _ _ H). apply inject_tenant_lookup.
Qed.

Variable language_model : list ContextEntry → ModelOutput.
Variable external_api : ToolCall → ToolResult.
Variable max_retries : nat.

Local Abbreviation step := (step language_model external_api max_retries).
Local Abbreviation run := (run language_model external_api max_retries).

(** A pass dispatches nothing, or one call that carries the tenant. *)
Lemma step_dispatched (st : TurnState) :
  dispatched (state_of (step st)) = dispatched st
  ∨ ∃ call, dispatched (state_of (step st)) = dispatched st ++ [call]
            ∧ carries_tenant call
            ∧ ∃ name args, language_model (context st) = ProposeCall name args
                           ∧ validate name args = inr (call_args call).
Proof.
  unfold Orchestrator.step.
  destruct (language_model (context st)) as [name args|text]; [|by left].
  destruct (validate name args) as [e|args'] eqn:Hv.
  - left. by destruct (decide _).
  - right. eexists. split; [|split].
    + destruct (is_failure _); [destruct (decide _)|]; reflexivity.
    + unfold carries_tenant. simpl. by eapply validate_carries_tenant.
    + exists name, args. by split.
Qed.

Lemma step_preserves_tenant (st : TurnState) :
  Forall carries_tenant (dispatched st) →
  Forall carries_tenant (dispatched (state_of (step st))).
Proof.
  intros H. destruct (step_dispatched st) as [-> | (call & -> & Hc & _)];
    [exact H|].
  apply Forall_app. split; [exact H | by constructor].
Qed.

Lemma run_preserves_tenant (fuel : nat) (st : TurnState) :
  Forall carries_tenant (dispatched st) →
  Forall carries_tenant (dispatched (state_of (run fuel st))).
Proof.
  revert st. induction fuel as [|k IH]; intros st H; [exact H|].
  pose proof (step_preserves_tenant st H) as Hs. simpl.
  destruct (Orchestrator.step _ _ _ st) as [st'|st' reply]; simpl in Hs.
  - by apply IH.
  - exact Hs.
Qed.

End OrchestratorFacts.

(** C1: whatever the language model proposes, and whatever the external
    API answers, validation replaces the tenant_id of the proposed
    Argument Set by "senso-sushi", and every Tool Call dispatched in a turn
    carries that tenant. *)
Theorem C1_dispatched_tenant_is_fixed
    (language_model : list Orchestrator.ContextEntry → Orchestrator.ModelOutput)
    (external_api : Orchestrator.ToolCall → Orchestrator.ToolResult)
    (max_retries fuel : nat)
    (history : list Orchestrator.ContextEntry) (utterance : string) :
  (∀ name args args' proposed,
     Orchestrator.validate name (<["tenant_id" := proposed]> args) = inr args' →
     args' !! "tenant_id" = Some (Orchestrator.VStr "senso-sushi"))
  ∧ Forall
      (λ call, Orchestrator.call_args call !! "tenant_id"
               = Some (Orchestrator.VStr "senso-sushi"))
      (Orchestrator.dispatched
         (Orchestrator.state_of
            (Orchestrator.run language_model external_api max_retries fuel
               (Orchestrator.start_turn history utterance)))).
Proof.
  split.
  - intros name args args' proposed H.
    exact (validate_carries_tenant _ _ _ H).
  - apply (run_preserves_tenant language_model external_api max_retries).
    constructor.
Qed.

Lemma show_top_items_limit_checked_first (args : gmap string Orchestrator.Value) (n : Z) :
  args !! "limit" = Some (Orchestrator.VInt n) →
  (n < 1 ∨ 1000 < n)%Z →
  Orchestrator.validate "show_top_items" args
  = inl (Orchestrator.OutOfRange "limit" n).
Proof.
  intros Hl Hn. unfold Orchestrator.validate.
  change (Agent.lookup_operation "show_top_items")
    with (Some (Agent.Build_Operation "show_top_items"
                  "Top N best-selling items by revenue"
                  [Agent.Build_Param "limit" (Agent.PRange 1 1000);
                   Agent.date "startDate"; Agent.date "endDate"]
                  [Agent.filter_ "category"] None)).
  cbv zeta. cbn [Agent.required Orchestrator.check_required Agent.pname].
  rewrite inject_tenant_other by discriminate. rewrite Hl.
  cbn [Orchestrator.check_value Agent.pkind Agent.pname].
  assert (((1 <=? n) && (n <=? 1000))%Z = false) as ->.
  { apply andb_false_iff. destruct Hn; [left|right]; lia. }
  reflexivity.
Qed.

(** C3: an Argument Set for show_top_items whose limit is an integer
    outside 1..1000 is rejected by validation, and the pass of the
    orchestrator in which the model proposes it dispatches no Tool Call:
    no request goes to the external API. *)
Theorem C3_limit_outside_range_rejected
    (args : gmap string Orchestrator.Value) (n : Z) :
  args !! "limit" = Some (Orchestrator.VInt n) →
  (n < 1 ∨ 1000 < n)%Z →
  (∃ e, Orchestrator.validate "show_top_items" args = inl e)
  ∧ ∀ language_model external_api max_retries st,
      language_model (Orchestrator.context st)
        = Orchestrator.ProposeCall "show_top_items" args →
      Orchestrator.dispatched
        (Orchestrator.state_of
           (Orchestrator.step language_model external_api max_retries st))
      = Orchestrator.dispatched st.
Proof.
  intros Hl Hn.
  pose proof (show_top_items_limit_checked_first args n Hl Hn) as Hv.
  split; [eauto|].
  intros language_model external_api max_retries st Hm.
  unfold Orchestrator.step. rewrite Hm, Hv.
  by destruct (decide _).
Qed.

Lemma C3_limit_outside_range_rejected_witness :
  let args : gmap string Orchestrator.Value :=
    {[ "limit" := Orchestrator.VInt 5000;
       "startDate" := Orchestrator.VStr "2025-07-01";
       "endDate" := Orchestrator.VStr "2025-07-31" ]} in
  (∃ e, Orchestrator.validate "show_top_items" args = inl e)
  ∧ ∀ language_model external_api max_retries st,
      language_model (Orchestrator.context st)
        = Orchestrator.ProposeCall "show_top_items" args →
      Orchestrator.dispatched
        (Orchestrator.state_of
           (Orchestrator.step language_model external_api max_retries st))
      = Orchestrator.dispatched st.
Proof.
  intros args.
  apply (C3_limit_outside_range_rejected args 5000).
  - reflexivity.
  - right. lia.
Defined.

(** ** Running the scripts *)

Ltac run_proc :=
  cbv [Proc.run_script Proc.finish Proc.boot
       Proc.bind Proc.ret Proc.emit Proc.print Proc.perform Proc.raise
       Proc.sys_exit Proc.try_except Proc.call Proc.call_value
       Proc.write_file Proc.store Proc.disk Proc.file_exists Proc.read_text
       Proc.getitem Proc.index Proc.OSError Proc.KeyError Proc.IndexError
       Proc.FileNotFoundError
       Proc.output Proc.actions Proc.files Proc.is_Exception Proc.message
       fst snd app].

Ltac solve_NoDup :=
  repeat (apply NoDup_cons_2;
          [rewrite list_elem_of_In; simpl; intuition discriminate|]);
  apply NoDup_nil_2.

Ltac pick_member :=
  apply list_elem_of_In; simpl;
  repeat first [left; reflexivity | right].

Lemma diagnostic_found (out : list Proc.Out) :
  existsb Proc.is_diagnostic out = true →
  ∃ o, o ∈ out ∧ Proc.is_diagnostic o = true.
Proof.
  intros H. apply existsb_exists in H as (o & Hin & Ho).
  exists o. split; [by apply list_elem_of_In | exact Ho].
Qed.

Section DeployFacts.
Import Proc Deploy.

Ltac deploy_cases D :=
  destruct D as [env dir init wrap create write]; unfold deploy, deployed;
  cbn [Deploy.init_outcome Deploy.wrap_outcome Deploy.create_outcome
       Deploy.write_outcome Deploy.environ Deploy.here];
  destruct init as [[[] ?]|];
  [| |destruct wrap as [[[] ?]|];
      [| |destruct create as [[[] ?]|created]; [| |destruct write]]];
  run_proc.

Lemma deploy_exit_code (D : Env) (fs : gmap string string) :
  fst (run_script (deploy D) fs)
  = match deployed D with Some _ => 0%Z | None => 1%Z end.
Proof. deploy_cases D; reflexivity. Qed.

Lemma deploy_failure_reported (D : Env) (fs : gmap string string) :
  deployed D = None →
  ∃ o, o ∈ output (snd (run_script (deploy D) fs)) ∧ is_diagnostic o = true.
Proof.
  deploy_cases D; intros H; try discriminate H;
    apply diagnostic_found; reflexivity.
Qed.

Lemma deploy_calls_once (D : Env) (fs : gmap string string) :
  NoDup (actions (snd (run_script (deploy D) fs))).
Proof. deploy_cases D; solve_NoDup. Qed.


End DeployFacts.

(** C9: when the deployment has succeeded and saving the resource name
    fails (on opening the file or on writing to it), the script prints the
    warning with the reason, then still prints DEPLOYMENT SUCCESSFUL!, and
    ends with status 0. *)
Theorem C9_save_failure_is_not_fatal
    (D : Deploy.Env) (fs : gmap string string) (resource_name reason : string) :
  Deploy.deployed D = Some resource_name →
  Deploy.write_outcome D = Proc.OpenFails reason
  ∨ Deploy.write_outcome D = Proc.WriteFails reason →
  fst (Proc.run_script (Deploy.deploy D) fs) = 0%Z
  ∧ ∃ before after,
      Proc.output (snd (Proc.run_script (Deploy.deploy D) fs))
      = before
        ++ Proc.Line ("⚠ Warning: Could not save resource name: " +:+ reason)
        :: after
      ∧ Proc.Line "DEPLOYMENT SUCCESSFUL!" ∈ after.
Proof.
  intros Hd Hw. split.
  { rewrite deploy_exit_code. by rewrite Hd. }
  revert Hd Hw.
  destruct D as [env dir init wrap create write].
  unfold Deploy.deploy, Deploy.deployed.
  cbn [Deploy.init_outcome Deploy.wrap_outcome Deploy.create_outcome
       Deploy.write_outcome Deploy.environ Deploy.here].
  destruct init; [discriminate|]. destruct wrap; [discriminate|].
  destruct create as [|r]; [discriminate|].
  intros _ [-> | ->]; run_proc;
    (eexists (_ :: _ :: _ :: _ :: _ :: _ :: _ :: _ :: _ :: _ :: _ :: _
              :: _ :: _ :: _ :: _ :: []), _;
     split; [reflexivity | pick_member]).
Qed.

Lemma C9_save_failure_is_not_fatal_witness :
  let D := {| Deploy.environ := ∅;
              Deploy.here := "/srv/agent";
              Deploy.init_outcome := None;
              Deploy.wrap_outcome := None;
              Deploy.create_outcome :=
                inr "projects/1/locations/us-central1/reasoningEngines/7";
              Deploy.write_outcome := Proc.OpenFails "Permission denied" |} in
  fst (Proc.run_script (Deploy.deploy D) ∅) = 0%Z
  ∧ ∃ before after,
      Proc.output (snd (Proc.run_script (Deploy.deploy D) ∅))
      = before
        ++ Proc.Line ("⚠ Warning: Could not save resource name: "
                      +:+ "Permission denied")
        :: after
      ∧ Proc.Line "DEPLOYMENT SUCCESSFUL!" ∈ after.
Proof.
  intros D.
  apply (C9_save_failure_is_not_fatal D ∅
           "projects/1/locations/us-central1/reasoningEngines/7"
           "Permission denied").
  - reflexivity.
  - left. reflexivity.
Defined.

(** ** The reply loop of the harness *)

Section ReplyFacts.
Import Proc TestAgent.

Lemma collect_app (acc : list string) (evs : list Event) :
  collect acc evs = acc ++ collect [] evs.
Proof.
  revert acc. induction evs as [|ev rest IH]; intros acc; simpl.
  - by rewrite app_nil_r.
  - rewrite IH. rewrite (IH (append_part [] ev)).
    destruct ev as [text|]; simpl; [|reflexivity].
    destruct (truthy text); simpl; [by rewrite <- app_assoc | reflexivity].
Qed.

Lemma collect_cons (ev : Event) (evs : list Event) :
  collect [] (ev :: evs) = append_part [] ev ++ collect [] evs.
Proof. simpl. apply collect_app. Qed.

Lemma append_part_text (ev : Event) :
  concat_all (append_part [] ev) = text_of ev.
Proof.
  destruct ev as [text|]; simpl; [|reflexivity].
  destruct (truthy text) eqn:Ht; simpl.
  - apply append_empty_r.
  - symmetry. by apply truthy_false.
Qed.

Lemma full_response_texts (evs : list Event) :
  full_response evs = concat_all (map text_of evs).
Proof.
  unfold full_response. rewrite join_empty_sep.
  induction evs as [|ev rest IH]; [reflexivity|].
  rewrite collect_cons, concat_all_app, append_part_text, IH. reflexivity.
Qed.

Lemma collect_fragments (fragments : list string) :
  collect [] (map TextEvent fragments) = filter (λ s, s ≠ "") fragments.
Proof.
  induction fragments as [|s rest IH]; [reflexivity|].
  change (map TextEvent (s :: rest)) with (TextEvent s :: map TextEvent rest).
  rewrite collect_cons, IH. simpl.
  destruct s as [|c s']; simpl.
  - by rewrite filter_cons_False by (intros H; by apply H).
  - by rewrite filter_cons_True by discriminate.
Qed.

End ReplyFacts.

(** C2: the final message built from a completed stream is the
    left-to-right concatenation of the texts of its events in arrival
    order. For a sequence of text fragments it is the concatenation of
    exactly those fragments: the parts kept are the fragments in order,
    each once, without the empty ones (which add nothing), and the
    fragments "Sales ", "were ", "$500" give "Sales were $500". *)
Theorem C2_final_message_is_concatenation (fragments : list string) :
  TestAgent.full_response (map TestAgent.TextEvent fragments)
  = PyStr.concat_all fragments
  ∧ TestAgent.collect [] (map TestAgent.TextEvent fragments)
    = filter (λ s, s ≠ "") fragments
  ∧ (∀ events, TestAgent.full_response events
               = PyStr.concat_all (map TestAgent.text_of events))
  ∧ TestAgent.full_response
      [TestAgent.TextEvent "Sales "; TestAgent.TextEvent "were ";
       TestAgent.TextEvent "$500"]
    = "Sales were $500".
Proof.
  split; [|split; [|split]].
  - rewrite full_response_texts. f_equal.
    induction fragments as [|s rest IH]; [reflexivity|].
    simpl. by rewrite IH.
  - apply collect_fragments.
  - apply full_response_texts.
  - reflexivity.
Qed.

(** ** The test queries *)

Ltac step_proc :=
  cbv [Proc.bind Proc.ret Proc.emit Proc.print Proc.perform Proc.raise
       Proc.sys_exit Proc.try_except Proc.call Proc.call_value
       Proc.disk Proc.file_exists Proc.read_text
       Proc.getitem Proc.index Proc.OSError Proc.KeyError Proc.IndexError
       Proc.FileNotFoundError
       Proc.output Proc.actions Proc.files Proc.is_Exception Proc.message
       fst snd].

Ltac split_output :=
  rewrite <- ?app_assoc; eexists; split; [reflexivity|].

Section QueryFacts.
Import Proc TestAgent.

Variable E : Env.
Variable session : gmap string string.
Variable session_id : string.
Variable total : nat.

Lemma run_test_spec (i : nat) (test : TestQuery) (p f : nat) (w : World) :
  let r := run_test E session session_id total i test (p, f) w in
  match fst r with
  | Normal c =>
      c = if query_passes E session session_id i test
          then (S p, f) else (p, S f)
  | SysExit _ => False
  | Raised e => query_passes E session session_id i test = false
  end
  ∧ files (snd r) = files w
  ∧ actions (snd r) = actions w ++ stream_queries session session_id [test]
  ∧ ∃ extra, output (snd r) = output w ++ extra
      ∧ (query_passes E session session_id i test = false →
         (∀ e, fst r ≠ Raised e) →
         existsb is_diagnostic extra = true).
Proof.
  destruct w as [out acts fs].
  unfold run_test, query_passes, stream_queries, consume, full_response,
    parts_at_end, getitem.
  destruct (session !! "user_id") as [user_id|]; step_proc.
  2:{ rewrite app_nil_r.
      split; [|split; [|split]]; try reflexivity. split_output. reflexivity. }
  destruct (ending _) as [[[] msg]|]; step_proc.
  - split; [|split; [|split]]; try reflexivity.
    split_output. reflexivity.
  - split; [|split; [|split]]; try reflexivity.
    split_output. intros _ H. by destruct (H _ eq_refl).
  - destruct (truthy _); [destruct (decide _)|]; step_proc;
      (split; [|split; [|split]]; try reflexivity; split_output);
      try discriminate.
    reflexivity.
Qed.

Lemma stream_queries_app (xs ys : list TestQuery) :
  stream_queries session session_id (xs ++ ys)
  = stream_queries session session_id xs ++ stream_queries session session_id ys.
Proof.
  unfold stream_queries. destruct (session !! "user_id"); [|reflexivity].
  apply map_app.
Qed.

Lemma run_tests_spec (tests : list TestQuery) :
  ∀ (i p f : nat) (w : World),
  let r := run_tests E session session_id total i tests (p, f) w in
  match fst r with
  | Normal (p', f') =>
      (f ≤ f')%nat
      ∧ (f' = f ↔ all_pass E session session_id i tests = true)
  | SysExit _ => False
  | Raised e => all_pass E session session_id i tests = false
  end
  ∧ files (snd r) = files w
  ∧ (∃ sent, actions (snd r)
             = actions w ++ stream_queries session session_id sent
             ∧ sent `prefix_of` tests)
  ∧ ∃ extra, output (snd r) = output w ++ extra
      ∧ (all_pass E session session_id i tests = false →
         (∀ e, fst r ≠ Raised e) →
         existsb is_diagnostic extra = true).
Proof.
  induction tests as [|test rest IH]; intros i p f w.
  { simpl. split; [split; [lia | done]|]. split; [reflexivity|].
    split.
    - exists []. split; [|by apply prefix_nil].
      unfold stream_queries. destruct (session !! "user_id"); simpl;
        by rewrite app_nil_r.
    - exists []. split; [by rewrite app_nil_r | discriminate]. }
  change (run_tests E session session_id total i (test :: rest) (p, f) w)
    with (bind (run_test E session session_id total i test (p, f))
            (λ c, run_tests E session session_id total (S i) rest c) w).
  unfold bind. cbn [all_pass].
  pose proof (run_test_spec i test p f w) as (Hc & Hf & Ha & extra1 & Ho & Hd).
  destruct (run_test E session session_id total i test (p, f) w)
    as [[[p1 f1]|code|e] w1]; cbn [fst snd] in *.
  - specialize (IH (S i) p1 f1 w1) as (IHc & IHf & (sent & IHa & Hpre)
                                      & extra2 & IHo & IHd).
    destruct (run_tests E session session_id total (S i) rest (p1, f1) w1)
      as [[[p2 f2]|code|e] w2]; cbn [fst snd] in *.
    + split; [|split; [congruence|split]].
      * destruct IHc as [Hle Hiff].
        destruct (query_passes E session session_id i test);
          injection Hc as -> ->; simpl.
        -- split; [exact Hle | exact Hiff].
        -- split; [lia|]. split; [lia | discriminate].
      * exists (test :: sent). split; [|by apply prefix_cons].
        rewrite IHa, Ha.
        change (test :: sent) with ([test] ++ sent).
        by rewrite stream_queries_app, app_assoc.
      * exists (extra1 ++ extra2). split; [by rewrite IHo, Ho, app_assoc|].
        intros Hall Hnr. rewrite existsb_app. apply orb_true_iff.
        destruct (query_passes E session session_id i test) eqn:Hq.
        -- right. apply IHd; [exact Hall | discriminate].
        -- left. apply Hd; [reflexivity | discriminate].
    + destruct IHc.
    + split; [|split; [congruence|split]].
      * by rewrite IHc, andb_false_r.
      * exists (test :: sent). split; [|by apply prefix_cons].
        rewrite IHa, Ha.
        change (test :: sent) with ([test] ++ sent).
        by rewrite stream_queries_app, app_assoc.
      * exists (extra1 ++ extra2). split; [by rewrite IHo, Ho, app_assoc|].
        intros _ Hnr. by destruct (Hnr e).
  - destruct Hc.
  - split; [|split; [exact Hf|split]].
    + by rewrite Hc.
    + exists [test]. split; [exact Ha | by apply prefix_cons, prefix_nil].
    + exists extra1. split; [exact Ho|]. intros _ Hnr. by destruct (Hnr e).
Qed.

End QueryFacts.

(** ** The harness *)

Section HarnessFacts.
Import Proc TestAgent.

Lemma stream_queries_planned (session : gmap string string)
    (session_id : string) (sent tests : list TestQuery) :
  sent `prefix_of` tests →
  stream_queries session session_id sent
  `prefix_of` map (λ t, StreamQuery (default "" (session !! "user_id"))
                          session_id (query t)) tests.
Proof.
  intros [k ->]. unfold stream_queries.
  destruct (session !! "user_id"); simpl.
  - rewrite map_app. by apply prefix_app_r.
  - apply prefix_nil.
Qed.

Lemma test_agent_spec (tests : list TestQuery) (E : Env)
    (resource_name : string) (w : World) :
  let r := test_agent_on tests E resource_name w in
  match fst r with
  | Normal b => b = passes_on tests E resource_name
  | SysExit c => c = 1%Z ∧ passes_on tests E resource_name = false
  | Raised e => passes_on tests E resource_name = false
  end
  ∧ files (snd r) = files w
  ∧ (∃ acts user_id session_id,
       actions (snd r) = actions w ++ acts
       ∧ acts `prefix_of`
           planned_calls tests E resource_name user_id session_id)
  ∧ ∃ extra, output (snd r) = output w ++ extra
      ∧ (passes_on tests E resource_name = false →
         (∀ e, fst r ≠ Raised e) →
         existsb is_diagnostic extra = true).
Proof.
  destruct w as [out acts fs].
  unfold test_agent_on, passes_on, setup, planned_calls.
  destruct (init_outcome E) as [e|]; step_proc.
  { split; [|split; [|split]]; try reflexivity.
    - exists [SdkInit (env_project E) (env_region E) None], "", "".
      split; [reflexivity|]. by apply prefix_cons, prefix_nil.
    - split_output. intros _ H. by destruct (H _ eq_refl). }
  destruct (get_outcome E resource_name) as [[[] msg]|]; step_proc.
  1,2: split; [|split; [|split]]; try (split; reflexivity); try reflexivity.
  1,3: eexists [_; _], "", ""; rewrite <- app_assoc;
       (split; [reflexivity|]); by do 2 apply prefix_cons; apply prefix_nil.
  1: split_output; reflexivity.
  1: split_output; intros _ H; by destruct (H _ eq_refl).
  destruct (session_outcome E _) as [[[] msg]|session]; step_proc.
  1,2: split; [|split; [|split]]; try (split; reflexivity); try reflexivity.
  1,3: eexists [_; _; _], "", ""; rewrite <- !app_assoc;
       (split; [reflexivity|]); by do 3 apply prefix_cons; apply prefix_nil.
  1: split_output; reflexivity.
  1: split_output; intros _ H; by destruct (H _ eq_refl).
  unfold getitem.
  destruct (session !! "id") as [session_id|]; step_proc.
  2:{ split; [|split; [|split]]; try (split; reflexivity); try reflexivity.
      - eexists [_; _; _], "", ""; rewrite <- !app_assoc.
        split; [reflexivity|]. by do 3 apply prefix_cons; apply prefix_nil.
      - split_output. reflexivity. }
  match goal with
  | |- context [run_tests ?E' ?s ?sid ?t ?i ?ts (?p, ?f) ?w0] =>
      pose proof (run_tests_spec E' s sid t ts i p f w0)
        as (Hc & Hf & (sent & Ha & Hpre) & extra & Ho & Hd);
      destruct (run_tests E' s sid t i ts (p, f) w0)
        as [[[p2 f2]|code|e] [out2 acts2 fs2]]
  end; cbn [fst snd output actions files] in *; step_proc.
  - destruct Hc as [_ Hiff].
    destruct (decide (length tests = 0%nat)) as [Hlen|Hlen]; step_proc.
    { apply length_zero_iff_nil in Hlen. subst tests.
      split; [reflexivity|]. split; [exact Hf|]. split.
      - exists ([SdkInit (env_project E) (env_region E) None;
                 GetEngine resource_name;
                 CreateSession ("test_user_" +:+ now E)]
                ++ stream_queries session session_id sent),
          (default "" (session !! "user_id")), session_id.
        split; [rewrite Ha; by rewrite <- !app_assoc|].
        do 3 apply prefix_cons. by apply stream_queries_planned.
      - rewrite Ho. split_output. intros _ H. by destruct (H _ eq_refl). }
    assert (negb (bool_decide (tests = [])) = true) as ->.
    { apply negb_true_iff, bool_decide_eq_false.
      intros ->. by apply Hlen. }
    rewrite andb_true_r.
    split; [|split; [exact Hf|split]].
    + destruct (all_pass _ _ _ _ _).
      * apply bool_decide_eq_true. by apply Hiff.
      * apply bool_decide_eq_false. intros Heq. by apply Hiff in Heq.
    + exists ([SdkInit (env_project E) (env_region E) None;
               GetEngine resource_name;
               CreateSession ("test_user_" +:+ now E)]
              ++ stream_queries session session_id sent),
        (default "" (session !! "user_id")), session_id.
      split; [rewrite Ha; by rewrite <- !app_assoc|].
      do 3 apply prefix_cons. by apply stream_queries_planned.
    + rewrite Ho. split_output. intros Hall _.
      rewrite !existsb_app. rewrite (Hd Hall); [|discriminate].
      by rewrite !orb_true_r.
  - destruct Hc.
  - split; [by rewrite Hc|split; [exact Hf|split]].
    + exists ([SdkInit (env_project E) (env_region E) None;
               GetEngine resource_name;
               CreateSession ("test_user_" +:+ now E)]
              ++ stream_queries session session_id sent),
        (default "" (session !! "user_id")), session_id.
      split; [rewrite Ha; by rewrite <- !app_assoc|].
      do 3 apply prefix_cons. by apply stream_queries_planned.
    + rewrite Ho. split_output. intros _ H. by destruct (H _ eq_refl).
Qed.

End HarnessFacts.

Section MainFacts.
Import Proc TestAgent.

Lemma resolve_condition (args : list string) :
  bool_decide (1 < length args)%nat
  && bool_decide (args !! 1%nat = Some "--resource")
  && bool_decide (2 < length args)%nat
  = bool_decide (is_Some (flagged_resource args)).
Proof.
  destruct args as [|prog [|flag [|value rest]]]; simpl.
  1-3: repeat case_bool_decide; simpl in *; try reflexivity; try lia;
       try discriminate.
  rewrite andb_true_r.
  destruct (decide (flag = "--resource")) as [->|Hne].
  - reflexivity.
  - rewrite (bool_decide_false (flag = _)) by exact Hne.
    rewrite (bool_decide_false (Some flag = _)) by congruence.
    reflexivity.
Qed.

Lemma flagged_resource_index (args : list string) (value : string) :
  flagged_resource args = Some value → args !! 2%nat = Some value.
Proof.
  destruct args as [|prog [|flag [|v rest]]]; simpl; try discriminate.
  by destruct (bool_decide _).
Qed.

Lemma resolve_flagged (E : Env) (w : World) (value : string) :
  flagged_resource (argv E) = Some value →
  resolve_resource_name E w = (Normal value, w).
Proof.
  intros H. unfold resolve_resource_name.
  rewrite resolve_condition, H.
  rewrite bool_decide_true by by eexists.
  unfold index. by rewrite (flagged_resource_index _ _ H).
Qed.

Lemma resolve_from_file (E : Env) (w : World) (content : string) :
  flagged_resource (argv E) = None →
  files w !! resource_file (here E) = Some content →
  resolve_resource_name E w
  = (Normal (strip content),
     {| output := output w;
        actions := (actions w ++ [FileExists (resource_file (here E))])
                   ++ [FileRead (resource_file (here E))];
        files := files w |}).
Proof.
  intros H Hf. unfold resolve_resource_name.
  rewrite resolve_condition, H.
  rewrite bool_decide_false by by intros [? ?].
  destruct w as [out acts fs]. cbn [files] in Hf. step_proc.
  rewrite Hf. rewrite bool_decide_true by by eexists.
  step_proc. rewrite Hf. reflexivity.
Qed.

Lemma resolve_missing (E : Env) (w : World) :
  flagged_resource (argv E) = None →
  files w !! resource_file (here E) = None →
  resolve_resource_name E w
  = (SysExit 1,
     {| output := output w ++ usage;
        actions := actions w ++ [FileExists (resource_file (here E))];
        files := files w |}).
Proof.
  intros H Hf. unfold resolve_resource_name.
  rewrite resolve_condition, H.
  rewrite bool_decide_false by by intros [? ?].
  destruct w as [out acts fs]. cbn [files] in Hf. step_proc.
  rewrite Hf. rewrite bool_decide_false by by intros [? ?].
  step_proc. rewrite <- !app_assoc. reflexivity.
Qed.

(** What [main] does, up to its exit. *)
Lemma main_spec (tests : list TestQuery) (E : Env) (fs : gmap string string) :
  let r := run_script (main_on tests E) fs in
  fst r = (if main_succeeds_on tests E fs then 0 else 1)%Z
  ∧ (main_succeeds_on tests E fs = false →
     existsb is_diagnostic (output (snd r)) = true)
  ∧ ∃ file_acts acts resource_name user_id session_id,
      actions (snd r) = file_acts ++ acts
      ∧ file_acts `prefix_of` [FileExists (resource_file (here E));
                               FileRead (resource_file (here E))]
      ∧ (is_Some (flagged_resource (argv E)) → file_acts = [])
      ∧ acts `prefix_of`
          planned_calls tests E resource_name user_id session_id.
Proof.
  unfold run_script, main_on, main_succeeds_on, resolved.
  step_proc.
  assert (∀ (w : World) (file_acts : list Action) resource_name,
    actions w = file_acts → output w = [] →
    file_acts `prefix_of` [FileExists (resource_file (here E));
                           FileRead (resource_file (here E))] →
    (is_Some (flagged_resource (argv E)) → file_acts = []) →
    let r := finish
      (let (c, w') := test_agent_on tests E resource_name w in
       match c with
       | Normal a => (@SysExit unit (if a then 0%Z else 1%Z), w')
       | SysExit c0 => (SysExit c0, w')
       | Raised e => (Raised e, w')
       end) in
    fst r = (if passes_on tests E resource_name then 0 else 1)%Z
    ∧ (passes_on tests E resource_name = false →
       existsb is_diagnostic (output (snd r)) = true)
    ∧ ∃ file_acts acts resource_name user_id session_id,
        actions (snd r) = file_acts ++ acts
        ∧ file_acts `prefix_of` [FileExists (resource_file (here E));
                                 FileRead (resource_file (here E))]
        ∧ (is_Some (flagged_resource (argv E)) → file_acts = [])
        ∧ acts `prefix_of`
            planned_calls tests E resource_name user_id session_id) as Hrun.
  { intros w file_acts resource_name Hacts Hout Hpre Hflag.
    pose proof (test_agent_spec tests E resource_name w)
      as (Hc & _ & (acts & user_id & session_id & Ha & Hp)
          & extra & Ho & Hd).
    destruct (test_agent_on tests E resource_name w)
      as [[b|code|e] [out2 acts2 fs2]]; intros r; subst r;
      cbv [finish]; cbn [fst snd output actions files] in *.
    - split; [by rewrite <- Hc; destruct b|]. split.
      + intros Hfail. rewrite Ho, existsb_app, (Hd Hfail); [|discriminate].
        by rewrite orb_true_r.
      + exists file_acts, acts, resource_name, user_id, session_id.
        by rewrite Ha, Hacts.
    - destruct Hc as [-> Hfail]. split; [by rewrite Hfail|]. split.
      + intros _. rewrite Ho, existsb_app, (Hd Hfail); [|discriminate].
        by rewrite orb_true_r.
      + exists file_acts, acts, resource_name, user_id, session_id.
        by rewrite Ha, Hacts.
    - split; [by rewrite Hc|]. split.
      + intros _. rewrite existsb_app. simpl. by rewrite orb_true_r.
      + exists file_acts, acts, resource_name, user_id, session_id.
        by rewrite Ha, Hacts. }
  destruct (flagged_resource (argv E)) as [value|] eqn:Hflag.
  { rewrite (resolve_flagged E (boot fs) value Hflag).
    apply (Hrun _ []); try reflexivity; try apply prefix_nil; done. }
  destruct (fs !! resource_file (here E)) as [content|] eqn:Hfile.
  - rewrite (resolve_from_file E (boot fs) content Hflag Hfile). simpl.
    apply (Hrun _ [FileExists (resource_file (here E));
                   FileRead (resource_file (here E))]);
      try reflexivity. by intros [? ?].
  - rewrite (resolve_missing E (boot fs) Hflag Hfile). simpl.
    split; [reflexivity|]. split; [reflexivity|].
    exists [FileExists (resource_file (here E))], [], "", "", "".
    repeat split; try apply prefix_nil.
    + by apply prefix_cons, prefix_nil.
    + by intros [? ?].
Qed.

(** The same for the whole script, from the guarded imports on. *)
Lemma script_spec (tests : list TestQuery) (E : Env) (fs : gmap string string) :
  let r := run_script (script_on tests E) fs in
  fst r = (if succeeds_on tests E fs then 0 else 1)%Z
  ∧ (succeeds_on tests E fs = false →
     existsb is_diagnostic (output (snd r)) = true)
  ∧ ∃ file_acts acts resource_name user_id session_id,
      actions (snd r) = file_acts ++ acts
      ∧ file_acts `prefix_of` [FileExists (resource_file (here E));
                               FileRead (resource_file (here E))]
      ∧ (is_Some (flagged_resource (argv E)) → file_acts = [])
      ∧ acts `prefix_of`
          planned_calls tests E resource_name user_id session_id.
Proof.
  unfold succeeds_on.
  destruct (sdk_installed E) eqn:Hsdk.
  - assert (run_script (script_on tests E) fs
            = run_script (main_on tests E) fs) as ->.
    { unfold run_script, script_on. rewrite Hsdk. reflexivity. }
    apply main_spec.
  - unfold run_script, script_on. rewrite Hsdk. step_proc. cbn.
    split; [reflexivity|]. split; [reflexivity|].
    exists [], [], "", "", "". repeat split; try apply prefix_nil.
Qed.

End MainFacts.

Lemma prefix_is_sublist {A} (l1 l2 : list A) :
  l1 `prefix_of` l2 → l1 `sublist_of` l2.
Proof. intros [k ->]. by apply sublist_inserts_r. Qed.

Lemma prefix_Forall {A} (P : A → Prop) (l1 l2 : list A) :
  l1 `prefix_of` l2 → Forall P l2 → Forall P l1.
Proof. intros [k ->] H. by apply Forall_app in H as [H _]. Qed.

Section ScriptFacts.
Import Proc TestAgent.

Lemma script_exit_code (tests : list TestQuery) (E : Env)
    (fs : gmap string string) :
  fst (run_script (script_on tests E) fs)
  = (if succeeds_on tests E fs then 0 else 1)%Z.
Proof. apply (script_spec tests E fs). Qed.

Lemma script_failure_reported (tests : list TestQuery) (E : Env)
    (fs : gmap string string) :
  fst (run_script (script_on tests E) fs) = 1%Z →
  ∃ o, o ∈ output (snd (run_script (script_on tests E) fs))
       ∧ is_diagnostic o = true.
Proof.
  intros H. apply diagnostic_found.
  apply (script_spec tests E fs).
  rewrite script_exit_code in H. by destruct (succeeds_on tests E fs).
Qed.

Lemma planned_calls_NoDup (E : Env) (resource_name user_id session_id : string) :
  NoDup ([FileExists (resource_file (here E));
          FileRead (resource_file (here E))]
         ++ planned_calls TEST_QUERIES E resource_name user_id session_id).
Proof. unfold planned_calls. simpl. solve_NoDup. Qed.

Lemma script_calls_once (E : Env) (fs : gmap string string) :
  NoDup (actions (snd (run_script (script E) fs))).
Proof.
  change (script E) with (script_on TEST_QUERIES E).
  destruct (script_spec TEST_QUERIES E fs)
    as (_ & _ & file_acts & acts & r & u & s & -> & Hf & _ & Ha).
  pose proof (sublist_app _ _ _ _ (prefix_is_sublist _ _ Hf)
                                  (prefix_is_sublist _ _ Ha)) as Hsub.
  exact (sublist_NoDup _ _ (planned_calls_NoDup E r u s) Hsub).
Qed.

Lemma planned_calls_no_file (tests : list TestQuery) (E : Env)
    (resource_name user_id session_id : string) :
  Forall (λ a, is_file_action a = false)
         (planned_calls tests E resource_name user_id session_id).
Proof.
  unfold planned_calls. repeat (constructor; [reflexivity|]).
  apply Forall_forall. intros a Ha.
  apply list_elem_of_fmap in Ha as (t & -> & _). reflexivity.
Qed.

Lemma not_flagged (args : list string) :
  (¬ ∃ prog value rest, args = prog :: "--resource" :: value :: rest) →
  flagged_resource args = None.
Proof.
  intros H. destruct args as [|prog [|flag [|value rest]]]; try reflexivity.
  simpl. case_bool_decide as Hflag; [|reflexivity].
  subst flag. destruct H. by eexists _, _, _.
Qed.

End ScriptFacts.

(** C7: the deploy script ends with status 0 when initialisation, wrapping
    and deployment all succeed, and with status 1 as soon as one of them
    fails; the test harness ends with status 0 when nothing fails and with
    status 1 when the SDK is missing, no resource name is found,
    initialisation, connection or session creation fails, or a test query
    fails. A run that ends with status 1 has printed a diagnostic, and no
    outside call is made twice in a run (no retry). *)
Theorem C7_exit_status
    (D : Deploy.Env) (T : TestAgent.Env) (fs : gmap string string) :
  let d := Proc.run_script (Deploy.deploy D) fs in
  let t := Proc.run_script (TestAgent.script T) fs in
  (fst d = match Deploy.deployed D with Some _ => 0 | None => 1 end
   ∧ (∀ e, Deploy.init_outcome D = Some e → fst d = 1)
   ∧ (∀ e, Deploy.wrap_outcome D = Some e → fst d = 1)
   ∧ (∀ e, Deploy.create_outcome D = inl e → fst d = 1)
   ∧ (fst d = 1 →
      ∃ o, o ∈ Proc.output (snd d) ∧ Proc.is_diagnostic o = true)
   ∧ NoDup (Proc.actions (snd d)))%Z
  ∧ (fst t = (if TestAgent.succeeds_on TestAgent.TEST_QUERIES T fs
              then 0 else 1)
     ∧ (TestAgent.sdk_installed T = false → fst t = 1)
     ∧ (TestAgent.resolved T fs = None → fst t = 1)
     ∧ (∀ resource_name, TestAgent.resolved T fs = Some resource_name →
          TestAgent.setup T resource_name = None → fst t = 1)
     ∧ (∀ resource_name session session_id,
          TestAgent.resolved T fs = Some resource_name →
          TestAgent.setup T resource_name = Some (session, session_id) →
          TestAgent.all_pass T session session_id 1 TestAgent.TEST_QUERIES
            = false →
          fst t = 1)
     ∧ (fst t = 1 →
        ∃ o, o ∈ Proc.output (snd t) ∧ Proc.is_diagnostic o = true)
     ∧ NoDup (Proc.actions (snd t)))%Z.
Proof.
  intros d t. split.
  - assert (fst d = match Deploy.deployed D with
                    | Some _ => 0%Z | None => 1%Z end) as Hd
      by apply deploy_exit_code.
    split; [exact Hd|].
    split; [|split; [|split; [|split]]].
    + intros e He. rewrite Hd. unfold Deploy.deployed. by rewrite He.
    + intros e He. rewrite Hd. unfold Deploy.deployed. rewrite He.
      by destruct (Deploy.init_outcome D).
    + intros e He. rewrite Hd. unfold Deploy.deployed. rewrite He.
      by destruct (Deploy.init_outcome D), (Deploy.wrap_outcome D).
    + intros H1. apply deploy_failure_reported.
      rewrite Hd in H1. by destruct (Deploy.deployed D).
    + apply deploy_calls_once.
  - assert (fst t = if TestAgent.succeeds_on TestAgent.TEST_QUERIES T fs
                    then 0%Z else 1%Z) as Ht
      by apply script_exit_code.
    split; [exact Ht|].
    split; [|split; [|split; [|split; [|split]]]].
    + intros H. rewrite Ht. unfold TestAgent.succeeds_on. by rewrite H.
    + intros H. rewrite Ht.
      unfold TestAgent.succeeds_on, TestAgent.main_succeeds_on. rewrite H.
      by rewrite andb_false_r.
    + intros r H Hs. rewrite Ht.
      unfold TestAgent.succeeds_on, TestAgent.main_succeeds_on.
      rewrite H. unfold TestAgent.passes_on. rewrite Hs.
      by rewrite andb_false_r.
    + intros r session session_id H Hs Hall. rewrite Ht.
      unfold TestAgent.succeeds_on, TestAgent.main_succeeds_on.
      rewrite H. unfold TestAgent.passes_on.
      rewrite Hs, Hall. by rewrite andb_false_r.
    + apply script_failure_reported.
    + apply script_calls_once.
Qed.



Section InterruptedFacts.
Import Proc TestAgent.

(** A query whose stream raises: the outcome does not depend on the events
    that arrived before. *)
Lemma run_test_interrupted (E : Env) (session : gmap string string)
    (session_id user_id : string) (total i : nat) (test : TestQuery)
    (p f : nat) (w : World) (e : PyExc) :
  session !! "user_id" = Some user_id →
  ending (stream_outcome E (i - 1) user_id session_id (query test)) = Some e →
  run_test E session session_id total i test (p, f) w
  = if is_Exception e then
      (Normal (p, S f),
       {| output := output w
            ++ [ Line ("[Test " +:+ pretty i +:+ "/" +:+ pretty total +:+ "] "
                       +:+ name test);
                 Line ("Query: " +:+ query test);
                 Line "";
                 Line ("✗ Test failed: " +:+ message e);
                 Line "" ];
          actions := actions w ++ [StreamQuery user_id session_id (query test)];
          files := files w |})
    else
      (Raised e,
       {| output := output w
            ++ [ Line ("[Test " +:+ pretty i +:+ "/" +:+ pretty total +:+ "] "
                       +:+ name test);
                 Line ("Query: " +:+ query test);
                 Line "" ];
          actions := actions w ++ [StreamQuery user_id session_id (query test)];
          files := files w |}).
Proof.
  intros Hu He. destruct w as [out acts fs].
  unfold run_test, consume, getitem. rewrite Hu. step_proc. rewrite He.
  destruct e as [[] msg]; step_proc; rewrite <- !app_assoc; reflexivity.
Qed.

Lemma query_passes_iff (E : Env) (session : gmap string string)
    (session_id : string) (i : nat) (test : TestQuery) :
  query_passes E session session_id i test = true
  ↔ ∃ user_id,
      session !! "user_id" = Some user_id
      ∧ ending (stream_outcome E (i - 1) user_id session_id (query test)) = None
      ∧ full_response
          (events (stream_outcome E (i - 1) user_id session_id (query test)))
        ≠ "".
Proof.
  unfold query_passes. split.
  - destruct (session !! "user_id") as [user_id|]; [|discriminate].
    destruct (ending _) eqn:He; [discriminate|].
    intros Ht. exists user_id. by rewrite He, <- truthy_true.
  - intros (user_id & -> & -> & Ht). by apply truthy_true.
Qed.

Lemma bind_ext {A B} (m : Proc A) (k k' : A → Proc B) (w : World) :
  (∀ a w', k a w' = k' a w') → bind m k w = bind m k' w.
Proof.
  intros H. unfold bind. destruct (m w) as [[a|c|e] w']; [apply H|..];
    reflexivity.
Qed.

Lemma run_tests_retooled (retool : TestQuery → string) (E : Env)
    (session : gmap string string) (session_id : string) (total : nat)
    (tests : list TestQuery) :
  ∀ i counters w,
    run_tests E session session_id total i
      (map (λ t, with_expected_tool (retool t) t) tests) counters w
    = run_tests E session session_id total i tests counters w.
Proof.
  induction tests as [|t rest IH]; intros i counters w; [reflexivity|].
  simpl. change (run_test E session session_id total i
                   (with_expected_tool (retool t) t) counters)
    with (run_test E session session_id total i t counters).
  apply bind_ext. intros c w'. apply IH.
Qed.

Lemma test_agent_retooled (retool : TestQuery → string) (E : Env)
    (tests : list TestQuery) (resource_name : string) (w : World) :
  test_agent_on (map (λ t, with_expected_tool (retool t) t) tests) E
    resource_name w
  = test_agent_on tests E resource_name w.
Proof.
  unfold test_agent_on. rewrite length_map.
  repeat first
    [ apply bind_ext; intros [? ?] ?
    | apply bind_ext; intros ? ? ].
  unfold bind at 1 3. by rewrite run_tests_retooled.
Qed.

(** The expected tool of a test query plays no part in a run. *)
Lemma script_retooled (retool : TestQuery → string) (E : Env)
    (tests : list TestQuery) (w : World) :
  script_on (map (λ t, with_expected_tool (retool t) t) tests) E w
  = script_on tests E w.
Proof.
  unfold script_on, main_on.
  apply bind_ext; intros _ w1. apply bind_ext; intros resource_name w2.
  unfold bind. by rewrite test_agent_retooled.
Qed.

End InterruptedFacts.



(** C8, as the harness has it: a test query is counted as passed exactly
    when its stream query is sent and runs to completion without an
    exception and the concatenation of its text fragments is not empty
    (otherwise it is counted as failed, or the run ends with the uncaught
    exception); the expected_tool of the test queries plays no part in a
    run; and once the setup has succeeded the exit status is 0 exactly
    when every query passed (for a list of queries that is not empty, as
    the one of the harness: the success rate divides by its length). *)
Theorem C8_passed_iff_completed_and_non_empty
    (tests : list TestAgent.TestQuery) (T : TestAgent.Env)
    (fs : gmap string string) :
  (∀ session session_id total i test p f w,
     match fst (TestAgent.run_test T session session_id total i test (p, f) w)
     with
     | Proc.Normal counters =>
         counters = if TestAgent.query_passes T session session_id i test
                    then (S p, f) else (p, S f)
     | Proc.SysExit _ => False
     | Proc.Raised e =>
         TestAgent.query_passes T session session_id i test = false
     end)
  ∧ (∀ session session_id i test,
       TestAgent.query_passes T session session_id i test = true
       ↔ ∃ user_id,
           session !! "user_id" = Some user_id
           ∧ TestAgent.ending
               (TestAgent.stream_outcome T (i - 1) user_id session_id
                  (TestAgent.query test)) = None
           ∧ TestAgent.full_response
               (TestAgent.events
                  (TestAgent.stream_outcome T (i - 1) user_id session_id
                     (TestAgent.query test))) ≠ "")
  ∧ (∀ (retool : TestAgent.TestQuery → string) w,
       TestAgent.script_on
         (map (λ t, TestAgent.with_expected_tool (retool t) t) tests) T w
       = TestAgent.script_on tests T w)
  ∧ (∀ resource_name session session_id,
       TestAgent.sdk_installed T = true →
       TestAgent.resolved T fs = Some resource_name →
       TestAgent.setup T resource_name = Some (session, session_id) →
       fst (Proc.run_script (TestAgent.script_on tests T) fs) = 0%Z
       ↔ TestAgent.all_pass T session session_id 1 tests = true
         ∧ tests ≠ []).
Proof.
  split; [|split; [|split]].
  - intros session session_id total i test p f w.
    apply (run_test_spec T session session_id total i test p f w).
  - intros. apply query_passes_iff.
  - intros retool w. apply script_retooled.
  - intros r session session_id Hsdk Hres Hsetup.
    rewrite script_exit_code.
    unfold TestAgent.succeeds_on, TestAgent.main_succeeds_on,
      TestAgent.passes_on.
    rewrite Hsdk, Hres, Hsetup. simpl.
    destruct (TestAgent.all_pass _ _ _ _ _), tests; simpl; split;
      try done; by intros [? ?].
Qed.

(** C8 as stated fails: a stream that yields "Sales " and "were " and is
    then cut has a non-empty concatenation of fragments, yet the query is
    counted as failed. *)
Lemma C8_counterexample :
  TestAgent.full_response
    [TestAgent.TextEvent "Sales "; TestAgent.TextEvent "were "]
  = "Sales were "
  ∧ fst (Scenario.interrupted
           [TestAgent.TextEvent "Sales "; TestAgent.TextEvent "were "]
           Scenario.disconnected)
    = Proc.Normal (0%nat, 1%nat)
  ∧ ¬ (∀ T session session_id total i test p f w user_id,
         session !! "user_id" = Some user_id →
         fst (TestAgent.run_test T session session_id total i test (p, f) w)
         = Proc.Normal (S p, f)
         ↔ TestAgent.full_response
             (TestAgent.events
                (TestAgent.stream_outcome T (i - 1) user_id session_id
                   (TestAgent.query test))) ≠ "").
Proof.
  split; [reflexivity|]. split; [vm_compute; reflexivity|].
  intros H.
  specialize (H (Scenario.env
                   {| TestAgent.events :=
                        [TestAgent.TextEvent "Sales ";
                         TestAgent.TextEvent "were "];
                      TestAgent.ending := Some Scenario.disconnected |})
                Scenario.session "session-1" 5%nat 1%nat Scenario.daily_sales
                0%nat 0%nat (Proc.boot ∅) "test_user_20250101_000000"
                eq_refl).
  destruct H as [_ H].
  assert (TestAgent.full_response
            [TestAgent.TextEvent "Sales "; TestAgent.TextEvent "were "] ≠ "")
    as Hne by discriminate.
  specialize (H Hne). vm_compute in H. discriminate H.
Qed.

(** C4, as the harness has it: when the reply stream raises after some
    fragments have arrived, [response_parts] holds those fragments in
    arrival order at that point (their concatenation is that of the texts
    of the events that arrived), but the harness has no peekPartial and
    makes no use of them: the query is counted as failed and only the
    message of the exception is printed, or, for an exception outside
    [Exception] such as a cancellation, the exception leaves the loop. In
    both cases what the run keeps does not depend on the fragments. *)
Theorem C4_interrupted_reply_is_discarded
    (T : TestAgent.Env) (session : gmap string string)
    (session_id user_id : string) (total i : nat) (test : TestAgent.TestQuery)
    (p f : nat) (w : Proc.World) (e : Proc.PyExc) :
  session !! "user_id" = Some user_id →
  TestAgent.ending
    (TestAgent.stream_outcome T (i - 1) user_id session_id
       (TestAgent.query test)) = Some e →
  PyStr.join ""
    (TestAgent.parts_at_end
       (TestAgent.stream_outcome T (i - 1) user_id session_id
          (TestAgent.query test)))
  = PyStr.concat_all
      (map TestAgent.text_of
         (TestAgent.events
            (TestAgent.stream_outcome T (i - 1) user_id session_id
               (TestAgent.query test))))
  ∧ TestAgent.run_test T session session_id total i test (p, f) w
    = if Proc.is_Exception e then
        (Proc.Normal (p, S f),
         {| Proc.output := Proc.output w
              ++ [ Proc.Line ("[Test " +:+ pretty i +:+ "/" +:+ pretty total
                              +:+ "] " +:+ TestAgent.name test);
                   Proc.Line ("Query: " +:+ TestAgent.query test);
                   Proc.Line "";
                   Proc.Line ("✗ Test failed: " +:+ Proc.message e);
                   Proc.Line "" ];
            Proc.actions := Proc.actions w
              ++ [Proc.StreamQuery user_id session_id (TestAgent.query test)];
            Proc.files := Proc.files w |})
      else
        (Proc.Raised e,
         {| Proc.output := Proc.output w
              ++ [ Proc.Line ("[Test " +:+ pretty i +:+ "/" +:+ pretty total
                              +:+ "] " +:+ TestAgent.name test);
                   Proc.Line ("Query: " +:+ TestAgent.query test);
                   Proc.Line "" ];
            Proc.actions := Proc.actions w
              ++ [Proc.StreamQuery user_id session_id (TestAgent.query test)];
            Proc.files := Proc.files w |}).
Proof.
  intros Hu He. split.
  - apply full_response_texts.
  - by apply run_test_interrupted.
Qed.

Lemma C4_interrupted_reply_is_discarded_witness :
  let s := {| TestAgent.events :=
                [TestAgent.TextEvent "Sales "; TestAgent.TextEvent "were "];
              TestAgent.ending := Some Scenario.disconnected |} in
  PyStr.join "" (TestAgent.parts_at_end s) = "Sales were "
  ∧ TestAgent.run_test (Scenario.env s) Scenario.session "session-1" 5 1
      Scenario.daily_sales (0%nat, 0%nat) (Proc.boot ∅)
    = (Proc.Normal (0%nat, 1%nat),
       {| Proc.output :=
            [ Proc.Line "[Test 1/5] Daily Sales Query";
              Proc.Line "Query: Show me daily sales for May 2025";
              Proc.Line "";
              Proc.Line "✗ Test failed: stream closed by peer";
              Proc.Line "" ];
          Proc.actions :=
            [ Proc.StreamQuery "test_user_20250101_000000" "session-1"
                "Show me daily sales for May 2025" ];
          Proc.files := ∅ |}).
Proof.
  intros s.
  exact (C4_interrupted_reply_is_discarded (Scenario.env s) Scenario.session
           "session-1" "test_user_20250101_000000" 5 1 Scenario.daily_sales
           0 0 (Proc.boot ∅) Scenario.disconnected eq_refl eq_refl).
Defined.

(** C4 as stated fails: after a disconnection or a cancellation the run is
    the same whether "Sales " and "were " had arrived or nothing had, so
    no peekPartial over what the harness keeps can give back
    "Sales were ". *)
Lemma C4_counterexample :
  let arrived := [TestAgent.TextEvent "Sales "; TestAgent.TextEvent "were "] in
  PyStr.join "" (TestAgent.collect [] arrived) = "Sales were "
  ∧ Scenario.interrupted arrived Scenario.disconnected
    = Scenario.interrupted [] Scenario.disconnected
  ∧ Scenario.interrupted arrived Scenario.cancelled
    = Scenario.interrupted [] Scenario.cancelled
  ∧ ¬ ∃ peekPartial : Proc.Ctl (nat * nat) * Proc.World → string,
        ∀ prefix,
          peekPartial (Scenario.interrupted prefix Scenario.disconnected)
          = PyStr.join "" (TestAgent.collect [] prefix).
Proof.
  intros arrived.
  assert (Scenario.interrupted arrived Scenario.disconnected
          = Scenario.interrupted [] Scenario.disconnected) as Hsame
    by (vm_compute; reflexivity).
  split; [reflexivity|]. split; [exact Hsame|].
  split; [vm_compute; reflexivity|].
  intros [peekPartial Hpeek].
  pose proof (Hpeek arrived) as H1. pose proof (Hpeek []) as H2.
  rewrite Hsame, H2 in H1. discriminate H1.
Qed.


(** ** Sample runs *)

Example validate_top_ten :
  Orchestrator.validate "show_top_items"
    {[ "limit" := Orchestrator.VInt 10;
       "startDate" := Orchestrator.VStr "2025-07-01";
       "endDate" := Orchestrator.VStr "2025-07-31" ]}
  = inr {[ "limit" := Orchestrator.VInt 10;
           "startDate" := Orchestrator.VStr "2025-07-01";
           "endDate" := Orchestrator.VStr "2025-07-31";
           "tenant_id" := Orchestrator.VStr "senso-sushi" ]}.
Proof. vm_compute. reflexivity. Qed.

Example harness_all_pass :
  fst (Proc.run_script (TestAgent.script (Scenario.env Scenario.answered))
         {[ "/srv/agent/.agent_resource" := "projects/1/reasoningEngines/7" ]})
  = 0%Z.
Proof. vm_compute. reflexivity. Qed.

(** * Further properties of the scripts *)

Section MoreHarnessFacts.
Import Proc TestAgent Aux.

Lemma strip_all_space (s : string) : all_space s = true → strip s = "".
Proof.
  intros H. unfold strip.
  assert (lstrip s = "") as ->; [|reflexivity].
  induction s as [|c s IH]; [reflexivity|]. simpl in *.
  apply andb_true_iff in H as [Hc Hs]. rewrite Hc. by apply IH.
Qed.

Lemma flag_needs_value_and_first_place (args : list string) :
  (length args ≤ 2)%nat ∨ args !! 1%nat ≠ Some "--resource" →
  flagged_resource args = None.
Proof.
  intros H. apply not_flagged. intros (prog & value & rest & ->).
  destruct H as [H|H]; [simpl in H; lia | by apply H].
Qed.

Lemma resolve_file_route (T : Env) (w : World) (content : string) :
  (length (argv T) ≤ 2)%nat ∨ argv T !! 1%nat ≠ Some "--resource" →
  files w !! resource_file (here T) = Some content →
  resolve_resource_name T w
  = (Normal (strip content),
     {| output := output w;
        actions := (actions w ++ [FileExists (resource_file (here T))])
                   ++ [FileRead (resource_file (here T))];
        files := files w |}).
Proof.
  intros Hargs Hfile. apply resolve_from_file; [|exact Hfile].
  by apply flag_needs_value_and_first_place.
Qed.

(** [test_agent] begins its outside calls with the initialisation of the
    SDK, whatever happens next. *)
Lemma test_agent_calls_init (tests : list TestQuery) (E : Env)
    (resource_name : string) (w : World) :
  ∃ more,
    actions (snd (test_agent_on tests E resource_name w))
    = actions w ++ SdkInit (env_project E) (env_region E) None :: more.
Proof.
  destruct w as [out acts fs]. unfold test_agent_on.
  destruct (init_outcome E) as [e|]; step_proc; [by exists []|].
  destruct (get_outcome E resource_name) as [[[] msg]|]; step_proc.
  1,2: eexists [_]; by rewrite <- app_assoc.
  destruct (session_outcome E _) as [[[] msg]|session]; step_proc.
  1,2: eexists [_; _]; by rewrite <- !app_assoc.
  unfold getitem.
  destruct (session !! "id") as [session_id|]; step_proc.
  2: eexists [_; _]; by rewrite <- !app_assoc.
  match goal with
  | |- context [run_tests ?E' ?s ?sid ?t ?i ?ts (?p, ?f) ?w0] =>
      pose proof (run_tests_spec E' s sid t ts i p f w0)
        as (_ & _ & (sent & Ha & _) & _);
      destruct (run_tests E' s sid t i ts (p, f) w0)
        as [[[p2 f2]|code|e] [out2 acts2 fs2]]
  end; cbn [fst snd output actions files] in *; step_proc;
    [destruct (decide _); step_proc|..];
    rewrite Ha, <- !app_assoc; by eexists (_ :: _ :: _).
Qed.



Lemma resolve_keeps_files (E : Env) (w : World) :
  files (snd (resolve_resource_name E w)) = files w.
Proof.
  destruct (flagged_resource (argv E)) as [value|] eqn:Hflag.
  - by rewrite (resolve_flagged E w value Hflag).
  - destruct (files w !! resource_file (here E)) as [content|] eqn:Hfile.
    + by rewrite (resolve_from_file E w content Hflag Hfile).
    + by rewrite (resolve_missing E w Hflag Hfile).
Qed.

Lemma main_keeps_files (tests : list TestQuery) (E : Env)
    (fs : gmap string string) :
  files (snd (run_script (main_on tests E) fs)) = fs.
Proof.
  unfold run_script, main_on. unfold bind at 1.
  pose proof (resolve_keeps_files E (boot fs)) as Hres.
  destruct (resolve_resource_name E (boot fs)) as [[r|code|e] w1];
    cbn [fst snd finish files boot] in *; [|exact Hres..].
  unfold bind.
  pose proof (test_agent_spec tests E r w1) as (_ & Hf & _).
  destruct (test_agent_on tests E r w1) as [[b|code|e] w2];
    cbn [fst snd finish sys_exit files] in *; congruence.
Qed.

End MoreHarnessFacts.

Section MoreDeployFacts.
Import Proc Deploy Aux.




End MoreDeployFacts.

(** X1: unless --resource is the first argument and a value follows it,
    the command line is ignored: with --resource as the last argument, or
    anywhere but in first place, [main] takes the resource name from the
    file, stripped, after one existence test and one read. *)
Theorem X1_resource_flag_ignored
    (T : TestAgent.Env) (w : Proc.World) (content : string) :
  (length (TestAgent.argv T) ≤ 2)%nat
  ∨ TestAgent.argv T !! 1%nat ≠ Some "--resource" →
  Proc.files w !! Proc.resource_file (TestAgent.here T) = Some content →
  TestAgent.resolve_resource_name T w
  = (Proc.Normal (strip content),
     {| Proc.output := Proc.output w;
        Proc.actions :=
          (Proc.actions w
           ++ [Proc.FileExists (Proc.resource_file (TestAgent.here T))])
          ++ [Proc.FileRead (Proc.resource_file (TestAgent.here T))];
        Proc.files := Proc.files w |}).
Proof. apply resolve_file_route. Qed.

Lemma X1_resource_flag_ignored_witness :
  TestAgent.resolve_resource_name
    (Scenario.started_with ["test_agent.py"; "--resource"]
       (Scenario.env Scenario.answered))
    (Proc.boot {[ "/srv/agent/.agent_resource" := "projects/1" ]})
  = (Proc.Normal "projects/1",
     {| Proc.output := [];
        Proc.actions := [ Proc.FileExists "/srv/agent/.agent_resource";
                          Proc.FileRead "/srv/agent/.agent_resource" ];
        Proc.files := {[ "/srv/agent/.agent_resource" := "projects/1" ]} |}).
Proof.
  refine (X1_resource_flag_ignored
            (Scenario.started_with ["test_agent.py"; "--resource"]
               (Scenario.env Scenario.answered))
            (Proc.boot {[ "/srv/agent/.agent_resource" := "projects/1" ]})
            "projects/1" _ _).
  - left. simpl. lia.
  - reflexivity.
Defined.

(** X2: it is the existence of .agent_resource that counts, not what it
    holds: when the file is there but empty or all whitespace, [main]
    prints no usage text, takes the empty string as the resource name and
    goes on to initialise the SDK. *)
Theorem X2_blank_file_gives_empty_name
    (T : TestAgent.Env) (fs : gmap string string) (content : string) :
  TestAgent.argv T !! 1%nat ≠ Some "--resource" →
  fs !! Proc.resource_file (TestAgent.here T) = Some content →
  Aux.all_space content = true →
  TestAgent.resolve_resource_name T (Proc.boot fs)
  = (Proc.Normal "",
     {| Proc.output := [];
        Proc.actions :=
          [ Proc.FileExists (Proc.resource_file (TestAgent.here T));
            Proc.FileRead (Proc.resource_file (TestAgent.here T)) ];
        Proc.files := fs |})
  ∧ ∃ more,
      Proc.actions (snd (Proc.run_script (TestAgent.main T) fs))
      = Proc.FileExists (Proc.resource_file (TestAgent.here T))
        :: Proc.FileRead (Proc.resource_file (TestAgent.here T))
        :: Proc.SdkInit (TestAgent.env_project T) (TestAgent.env_region T) None
        :: more.
Proof.
  intros Hargs Hfile Hblank.
  pose proof (resolve_file_route T (Proc.boot fs) content
                (or_intror Hargs) Hfile) as Hres.
  rewrite (strip_all_space content Hblank) in Hres.
  split; [exact Hres|].
  unfold Proc.run_script, TestAgent.main, TestAgent.main_on.
  unfold Proc.bind at 1. rewrite Hres. cbv beta iota. unfold Proc.bind.
  match goal with
  | |- context [TestAgent.test_agent_on ?ts ?E ?r ?w0] =>
      destruct (test_agent_calls_init ts E r w0) as [more Hmore];
      destruct (TestAgent.test_agent_on ts E r w0) as [[b|code|e] w1]
  end; cbn [fst snd Proc.finish Proc.sys_exit Proc.actions] in *;
    rewrite Hmore; by eexists.
Qed.

Lemma X2_blank_file_gives_empty_name_witness :
  let T := Scenario.env Scenario.answered in
  let fs : gmap string string := {[ "/srv/agent/.agent_resource" := nl ]} in
  TestAgent.resolve_resource_name T (Proc.boot fs)
  = (Proc.Normal "",
     {| Proc.output := [];
        Proc.actions :=
          [ Proc.FileExists (Proc.resource_file (TestAgent.here T));
            Proc.FileRead (Proc.resource_file (TestAgent.here T)) ];
        Proc.files := fs |})
  ∧ ∃ more,
      Proc.actions (snd (Proc.run_script (TestAgent.main T) fs))
      = Proc.FileExists (Proc.resource_file (TestAgent.here T))
        :: Proc.FileRead (Proc.resource_file (TestAgent.here T))
        :: Proc.SdkInit (TestAgent.env_project T) (TestAgent.env_region T) None
        :: more.
Proof.
  intros T fs.
  apply (X2_blank_file_gives_empty_name T fs nl).
  - discriminate.
  - reflexivity.
  - reflexivity.
Defined.



(** X4: the harness writes nothing: whatever happens in a run, the files
    are afterwards as they were before, and no outside call of the run is
    the writing of a file. *)
Theorem X4_harness_leaves_files_alone
    (T : TestAgent.Env) (fs : gmap string string) :
  Proc.files (snd (Proc.run_script (TestAgent.script T) fs)) = fs
  ∧ Forall (λ a, ∀ path content, a ≠ Proc.FileWrite path content)
      (Proc.actions (snd (Proc.run_script (TestAgent.script T) fs))).
Proof.
  split.
  - change (TestAgent.script T)
      with (TestAgent.script_on TestAgent.TEST_QUERIES T).
    unfold TestAgent.script_on.
    destruct (TestAgent.sdk_installed T); [|reflexivity].
    apply (main_keeps_files TestAgent.TEST_QUERIES T fs).
  - change (TestAgent.script T)
      with (TestAgent.script_on TestAgent.TEST_QUERIES T).
    destruct (script_spec TestAgent.TEST_QUERIES T fs)
      as (_ & _ & file_acts & acts & r & u & s & -> & Hf & _ & Ha).
    apply Forall_app. split.
    + eapply prefix_Forall; [exact Hf|]. by repeat constructor.
    + eapply prefix_Forall; [exact Ha|].
      eapply Forall_impl; [apply planned_calls_no_file|].
      intros a Hno path content ->. discriminate Hno.
Qed.




